(** * sentry.db.models.fields.node

    A shallow embedding of [src/sentry/db/models/fields/node.py]: the lazy
    document proxy [NodeData] and the pointer field codec [NodeField].

    Python objects are modelled by a small universe of dynamically typed
    values; attribute mutation is modelled by explicit state passing, and a
    raised exception is a result that keeps the state reached so far (what
    was assigned before the [raise] stays assigned). *)

From Stdlib Require Import ZArith Ascii String List Bool.
From stdpp Require Import base gmap strings.

Open Scope string_scope.
Import ListNotations.

(** ** Python values *)

(** Scalars: what pointers, reference tokens, epochs and the leaves of a
    document are made of.  The module never looks inside a leaf. *)
Inductive pyval : Type :=
| PyNone
| PyBool (b : bool)
| PyInt (z : Z)
| PyStr (s : string).

(** Python's [==] on scalars; [True == 1] and [False == 0] hold. *)
Definition py_eq (a b : pyval) : bool :=
  match a, b with
  | PyNone, PyNone => true
  | PyBool x, PyBool y => Bool.eqb x y
  | PyBool x, PyInt y => Z.eqb (Z.b2z x) y
  | PyInt x, PyBool y => Z.eqb x (Z.b2z y)
  | PyInt x, PyInt y => Z.eqb x y
  | PyStr x, PyStr y => String.eqb x y
  | _, _ => false
  end.

(** Python's [!=]. *)
Definition py_ne (a b : pyval) : bool := negb (py_eq a b).

(** [x is None]. *)
Definition is_None (a : pyval) : bool :=
  match a with PyNone => true | _ => false end.

(** Truth value of a scalar ([if x:] / [not x]). *)
Definition py_truthy (a : pyval) : bool :=
  match a with
  | PyNone => false
  | PyBool b => b
  | PyInt z => negb (Z.eqb z 0)
  | PyStr s => negb (String.eqb s EmptyString)
  end.

(** A [dict] with string keys.  Two dicts with the same items are equal
    whatever the insertion order. *)
Abbreviation doc := (gmap string pyval).

(** Modelled from the spec: [sentry.utils.canonical] ([CanonicalKeyDict],
    [CANONICAL_TYPES]) is not part of the sources.  The spec describes the
    canonicalization wrapper as a transform normalizing a decoded mapping's
    key ordering; since [doc] has no key order, a canonical dict is a tagged
    mapping with the same items. *)
Inductive pyobj : Type :=
| Dict (d : doc)
| CanonicalKeyDict (d : doc)
| Val (v : pyval).

Definition None_ : pyobj := Val PyNone.

Inductive exn : Type :=
| NodeUnpopulated
| NodeIntegrityFailure
| KeyError
| TypeError
| AttributeError.

Inductive result (A : Type) : Type :=
| Ok (a : A)
| Raise (e : exn).
Arguments Ok {A} a.
Arguments Raise {A} e.

(** [obj is not None] *)
Definition is_not_None (o : pyobj) : bool :=
  match o with Val PyNone => false | _ => true end.

(** [isinstance(o, CANONICAL_TYPES)] *)
Definition is_canonical (o : pyobj) : bool :=
  match o with CanonicalKeyDict _ => true | _ => false end.

(** [len(o)] *)
Definition obj_len (o : pyobj) : result nat :=
  match o with
  | Dict d | CanonicalKeyDict d => Ok (size d)
  | Val (PyStr s) => Ok (String.length s)
  | Val _ => Raise TypeError
  end.

(** Truth value of an object: containers are true when non-empty. *)
Definition obj_truthy (o : pyobj) : bool :=
  match o with
  | Dict d | CanonicalKeyDict d => negb (Nat.eqb (size d) 0)
  | Val v => py_truthy v
  end.

(** [k in o] for a string [k]: key membership on mappings, substring test
    on a string, [TypeError] on the other scalars. *)
Definition obj_contains (o : pyobj) (k : string) : result bool :=
  match o with
  | Dict d | CanonicalKeyDict d => Ok (bool_decide (is_Some (d !! k)))
  | Val (PyStr s) =>
      Ok (match String.index 0 k s with Some _ => true | None => false end)
  | Val _ => Raise TypeError
  end.

(** [o.items()] *)
Definition obj_items (o : pyobj) : result doc :=
  match o with
  | Dict d | CanonicalKeyDict d => Ok d
  | Val _ => Raise AttributeError
  end.

(** [o[k]] *)
Definition obj_getitem (o : pyobj) (k : string) : result pyval :=
  match o with
  | Dict d | CanonicalKeyDict d =>
      match d !! k with Some v => Ok v | None => Raise KeyError end
  | Val _ => Raise TypeError
  end.

(** [o[k] = v]; the result is the object after the assignment. *)
Definition obj_setitem (o : pyobj) (k : string) (v : pyval) : result pyobj :=
  match o with
  | Dict d => Ok (Dict (<[k := v]> d))
  | CanonicalKeyDict d => Ok (CanonicalKeyDict (<[k := v]> d))
  | Val _ => Raise TypeError
  end.

(** [del o[k]] *)
Definition obj_delitem (o : pyobj) (k : string) : result pyobj :=
  match o with
  | Dict d =>
      match d !! k with Some _ => Ok (Dict (delete k d)) | None => Raise KeyError end
  | CanonicalKeyDict d =>
      match d !! k with
      | Some _ => Ok (CanonicalKeyDict (delete k d))
      | None => Raise KeyError
      end
  | Val _ => Raise TypeError
  end.

(** [o.pop(k, default)] and [o.pop(k)] ([default = None]): the popped value
    and the object after the call.  Scalars have no [pop]. *)
Definition obj_pop (o : pyobj) (k : string) (default : option pyval)
  : result (pyval * pyobj) :=
  let pop_map (mk : doc -> pyobj) (d : doc) :=
    match d !! k, default with
    | Some v, _ => Ok (v, mk (delete k d))
    | None, Some v => Ok (v, mk d)
    | None, None => Raise KeyError
    end in
  match o with
  | Dict d => pop_map Dict d
  | CanonicalKeyDict d => pop_map CanonicalKeyDict d
  | Val _ => Raise AttributeError
  end.

(** [dict(o.items())] *)
Definition plain_dict (o : pyobj) : result pyobj :=
  match obj_items o with Ok d => Ok (Dict d) | Raise e => Raise e end.

(** The constructor call [CanonicalKeyDict(o)]. *)
Definition make_canonical (o : pyobj) : result pyobj :=
  match o with
  | Dict d | CanonicalKeyDict d => Ok (CanonicalKeyDict d)
  | Val _ => Raise TypeError
  end.

(** ** A state and exception monad

    [M St A] is a computation over a mutable state [St] that returns an [A]
    or raises; the state survives a raise. *)
Definition M (St A : Type) : Type := St -> result A * St.

Definition ret {St A} (a : A) : M St A := fun s => (Ok a, s).

Definition raise {St A} (e : exn) : M St A := fun s => (Raise e, s).

Definition bind {St A B} (c : M St A) (k : A -> M St B) : M St B :=
  fun s =>
    match c s with
    | (Ok a, s') => k a s'
    | (Raise e, s') => (Raise e, s')
    end.

Definition get_state {St} : M St St := fun s => (Ok s, s).

Definition modify {St} (f : St -> St) : M St unit := fun s => (Ok tt, f s).

Definition lift_result {St A} (r : result A) : M St A := fun s => (r, s).

Declare Scope py_scope.
Delimit Scope py_scope with py.
Notation "'do' x <- c ; k" := (bind c (fun x => k))
  (at level 10, x pattern, c at level 100, k at level 200) : py_scope.
Notation "c ;; k" := (bind c (fun _ => k))
  (at level 100, k at level 200, right associativity) : py_scope.
Open Scope py_scope.

(** ** External collaborators *)

(** [django.conf.settings], as far as this module reads it. *)
Record Settings : Type := { DEBUG : bool }.

(** [sentry.nodestore]: the document store client.  [ns_get] answers [None]
    for an absent pointer.  The calls are taken to succeed; what the store
    does with them is left to the instance. *)
Class NodeStore (S : Type) : Type := {
  ns_create : S -> pyobj -> pyval * S;
  ns_get : S -> pyval -> pyobj;
  ns_set : S -> pyval -> pyobj -> S;
  ns_delete : S -> pyval -> S
}.

(** [sentry.utils.strings.compress]/[decompress] and [pickle.dumps]/[loads];
    a decoder answers [None] where the Python function raises. *)
Class Codec : Type := {
  compress : string -> string;
  decompress : string -> option string;
  pickle_dumps : pyobj -> string;
  pickle_loads : string -> option pyobj
}.

(** The calls made on the store, oldest first. *)
Inductive store_call : Type :=
| CallCreate (data : pyobj)
| CallGet (id : pyval)
| CallSet (id : pyval) (data : pyobj)
| CallDelete (id : pyval).

(** Everything outside the proxy that the module reads or changes: the
    store, the record of calls made on it, the warnings issued and the
    number of exceptions sent to the logger. *)
Record World (S : Type) : Type := mkWorld {
  store : S;
  calls : list store_call;
  warnings : list string;
  logged : nat
}.
Arguments mkWorld {S} _ _ _ _.
Arguments store {S} _.
Arguments calls {S} _.
Arguments warnings {S} _.
Arguments logged {S} _.

Module nodestore.
Section Client.
Context {S : Type} `{NodeStore S}.

Definition create (data : pyobj) : M (World S) pyval :=
  fun w =>
    let '(i, s) := ns_create (store w) data in
    (Ok i, mkWorld s (calls w ++ [CallCreate data]) (warnings w) (logged w)).

Definition get (id : pyval) : M (World S) pyobj :=
  fun w =>
    (Ok (ns_get (store w) id),
     mkWorld (store w) (calls w ++ [CallGet id]) (warnings w) (logged w)).

Definition set (id : pyval) (data : pyobj) : M (World S) unit :=
  fun w =>
    (Ok tt,
     mkWorld (ns_set (store w) id data) (calls w ++ [CallSet id data])
       (warnings w) (logged w)).

Definition delete (id : pyval) : M (World S) unit :=
  fun w =>
    (Ok tt,
     mkWorld (ns_delete (store w) id) (calls w ++ [CallDelete id])
       (warnings w) (logged w)).
End Client.
End nodestore.

(** [warnings.warn(msg)] *)
Definition warn {S} (msg : string) : M (World S) unit :=
  modify (fun w => mkWorld (store w) (calls w) (warnings w ++ [msg]) (logged w)).

(** [logger.exception(e)] *)
Definition log_exception {S} : M (World S) unit :=
  modify (fun w => mkWorld (store w) (calls w) (warnings w) (Datatypes.S (logged w))).

(** ** The field's options

    The attributes that [NodeField.__init__] and [contribute_to_class] leave
    on the field object: [name], the [null] option of the Django field,
    [ref_version] and [wrapper].  ([ref_func] is only read by [get_ref],
    which needs the owning model instance and is not modelled.) *)
Module Field.
Record t : Type := mk {
  name : string;
  null : bool;
  ref_version : pyval;
  wrapper : option (pyobj -> pyobj)
}.

(** [if self.wrapper is not None: data = self.wrapper(data)] *)
Definition wrap (f : t) (data : pyobj) : pyobj :=
  match wrapper f with
  | Some w => w data
  | None => data
  end.
End Field.

(** ** [class NodeData(collections.MutableMapping)] *)
Module NodeData.

(** The instance attributes set by [__init__]. *)
Record t : Type := mk {
  field : Field.t;
  id : pyval;
  ref : pyval;
  ref_version : pyval;
  _node_data : pyobj
}.

(** [NodeData(field, id, data=None)] *)
Definition __init__ (field : Field.t) (id : pyval) (data : pyobj) : t :=
  mk field id PyNone PyNone data.

Definition set_id (v : pyval) (self : t) : t :=
  mk (field self) v (ref self) (ref_version self) (_node_data self).
Definition set_ref (v : pyval) (self : t) : t :=
  mk (field self) (id self) v (ref_version self) (_node_data self).
Definition set_ref_version (v : pyval) (self : t) : t :=
  mk (field self) (id self) (ref self) v (_node_data self).
Definition set_node_data (o : pyobj) (self : t) : t :=
  mk (field self) (id self) (ref self) (ref_version self) o.

(** *** [bind_data]

    The state is the proxy together with the caller's [data] object,
    which the two [pop]s change in place. *)
Definition on_self (f : t -> t) : M (t * pyobj) unit :=
  modify (fun '(self, data) => (f self, data)).

Definition pop_data (k : string) (default : pyval) : M (t * pyobj) pyval :=
  fun '(self, data) =>
    match obj_pop data k (Some default) with
    | Ok (v, data') => (Ok v, (self, data'))
    | Raise e => (Raise e, (self, data))
    end.

(** [ref] and [ref_version] are assigned before the test; [_node_data]
    after it. *)
Definition bind_data (ref : pyval) : M (t * pyobj) unit :=
  do r <- pop_data "_ref" ref;
  on_self (set_ref r);;
  do rv <- pop_data "_ref_version" PyNone;
  on_self (set_ref_version rv);;
  do (self, data) <- get_state;
  if py_eq rv (Field.ref_version (field self)) && negb (is_None ref) && py_ne r ref
  then raise NodeIntegrityFailure
  else on_self (set_node_data (Field.wrap (field self) data)).

(** *** The methods that touch the store *)
Section WithStore.
Context {S : Type} `{NodeStore S} (settings : Settings).

Definition St : Type := (t * World S)%type.

Definition self_ : M St t := fun '(self, w) => (Ok self, (self, w)).

Definition update (f : t -> t) : M St unit :=
  modify (fun '(self, w) => (f self, w)).

Definition in_world {A} (c : M (World S) A) : M St A :=
  fun '(self, w) => let '(r, w') := c w in (r, (self, w')).

(** [self.bind_data(data)] called from a method: the argument is a
    temporary, so what is left of it after the call is dropped. *)
Definition call_bind_data (data : pyobj) (ref : pyval) : M St unit :=
  fun '(self, w) =>
    let '(r, (self', _)) := bind_data ref (self, data) in
    (r, (self', w)).

(** What the [data] property hands back: the object stored in
    [_node_data] itself, or a fresh object nobody else refers to. *)
Inductive dataref : Type :=
| Own
| Temp (o : pyobj).

Definition deref (self : t) (r : dataref) : pyobj :=
  match r with Own => _node_data self | Temp o => o end.

(** Writing through the reference: only [Own] changes the proxy. *)
Definition assign (r : dataref) (o : pyobj) : M St unit :=
  match r with
  | Own => update (set_node_data o)
  | Temp _ => ret tt
  end.

(** The [data] property.  Only the branch with a pointer assigns
    [_node_data] (through [bind_data]); the last branch returns a fresh
    document. *)
Definition data : M St dataref :=
  do self <- self_;
  if is_not_None (_node_data self) then ret Own
  else if py_truthy (id self) then
    (if DEBUG settings
     then raise NodeUnpopulated
     else in_world (warn "You should populate node data before accessing it."));;
    do got <- in_world (nodestore.get (id self));
    call_bind_data (if obj_truthy got then got else Dict ∅) PyNone;;
    ret Own
  else
    let rv := Dict ∅ in
    let rv := Field.wrap (field self) rv in
    ret (Temp rv).

(** [self.data] followed by a read of the object it returned. *)
Definition read_data : M St (dataref * pyobj) :=
  do r <- data;
  do self <- self_;
  ret (r, deref self r).

Definition __getitem__ (key : string) : M St pyval :=
  do (_, o) <- read_data;
  lift_result (obj_getitem o key).

Definition __setitem__ (key : string) (value : pyval) : M St unit :=
  do (r, o) <- read_data;
  do o' <- lift_result (obj_setitem o key value);
  assign r o'.

Definition __delitem__ (key : string) : M St unit :=
  do (r, o) <- read_data;
  do o' <- lift_result (obj_delitem o key);
  assign r o'.

Definition __len__ : M St nat :=
  do (_, o) <- read_data;
  lift_result (obj_len o).

(** [bool(self)]: the class defines no [__nonzero__], so the truth
    value of a proxy is [len(self) != 0]. *)
Definition truth_value : M St bool :=
  do n <- __len__;
  ret (negb (Nat.eqb n 0)).
End WithStore.

(** *** Pickling

    The dictionary handled by [__getstate__] and [__setstate__]: the
    instance attributes, the [_node_data_CANONICAL] flag, and the [data]
    entry that legacy pickles carry. *)
Record state : Type := mk_state {
  st_field : Field.t;
  st_id : pyval;
  st_ref : pyval;
  st_ref_version : pyval;
  st_node_data : pyobj;
  st_node_data_CANONICAL : option bool;
  st_data : option pyobj
}.

(** [data.pop('data', None)] finds nothing in the instance dictionary; the
    flag is computed before the body is turned into a plain dict, and
    [.items()] is what fails on an absent body. *)
Definition __getstate__ (self : t) : result state :=
  let flag := is_canonical (_node_data self) in
  match plain_dict (_node_data self) with
  | Ok d =>
      Ok (mk_state (field self) (id self) (ref self) (ref_version self)
            d (Some flag) None)
  | Raise e => Raise e
  end.

(** The [data] entry is dropped; a missing flag counts as [False]. *)
Definition __setstate__ (state : state) : result t :=
  let flag := default false (st_node_data_CANONICAL state) in
  let restored :=
    if flag then make_canonical (st_node_data state)
    else Ok (st_node_data state) in
  match restored with
  | Ok d =>
      Ok (mk (st_field state) (st_id state) (st_ref state)
            (st_ref_version state) d)
  | Raise e => Raise e
  end.
End NodeData.

(** ** [class NodeField(GzippedDictField)] *)
Module NodeField.
Section WithStore.
Context {S : Type} `{NodeStore S} `{Codec} (settings : Settings).

(** A model instance, as far as the field sees it: its attributes that
    hold a proxy, by name. *)
Definition instance : Type := gmap string NodeData.t.

(** [getattr(instance, name)] *)
Definition getattr (inst : instance) (name : string) : result NodeData.t :=
  match inst !! name with
  | Some value => Ok value
  | None => Raise AttributeError
  end.

(** The [post_delete] hook. *)
Definition on_delete (self : Field.t) (inst : instance) : M (World S) unit :=
  do value <- lift_result (getattr inst (Field.name self));
  if negb (py_truthy (NodeData.id value)) then ret tt
  else nodestore.delete (NodeData.id value).

(** [pickle.loads(decompress(value))] inside the [try]: [None] when
    either call raises. *)
Definition decode (value : string) : option pyobj :=
  match decompress value with
  | Some bytes => pickle_loads bytes
  | None => None
  end.

(** [isinstance(value, six.string_types) and value] *)
Definition nonempty_string (value : pyobj) : option string :=
  match value with
  | Val (PyStr s) => if String.eqb s EmptyString then None else Some s
  | _ => None
  end.

(** Only the decoding is inside the [try]; the membership test and the
    [pop] that follow are not. *)
Definition to_python (self : Field.t) (value : pyobj) : M (World S) NodeData.t :=
  do value <-
    match nonempty_string value with
    | Some s =>
        match decode s with
        | Some v => ret v
        | None => log_exception;; ret (Dict ∅)
        end
    | None =>
        if negb (obj_truthy value) then ret (Dict ∅) else ret value
    end;
  do has_id <- lift_result (obj_contains value "node_id");
  do (node_id, data) <-
    (if has_id then
       do (node_id, _) <- lift_result (obj_pop value "node_id" None);
       ret (node_id, None_)
     else ret (PyNone, value));
  let data :=
    if is_not_None data then Field.wrap self data else data in
  ret (NodeData.__init__ self node_id data).

(** The pointer record [{'node_id': id}]. *)
Definition pointer_record (id : pyval) : pyobj := Dict {[ "node_id" := id ]}.

(** The state is the proxy [value] and the world.  The result is [None]
    or the string to persist. *)
Definition get_prep_value (self : Field.t) : M (NodeData.t * World S) pyval :=
  do nonempty <- NodeData.truth_value settings;
  if negb nonempty && Field.null self then ret PyNone
  else
    do (_, data) <- NodeData.read_data settings;
    do data <-
      (if is_canonical data then lift_result (plain_dict data) else ret data);
    do value <- NodeData.self_;
    (if negb (py_truthy (NodeData.id value)) then
       do new_id <- NodeData.in_world (nodestore.create data);
       NodeData.update (NodeData.set_id new_id)
     else
       NodeData.in_world (nodestore.set (NodeData.id value) data));;
    do value <- NodeData.self_;
    ret (PyStr (compress (pickle_dumps (pointer_record (NodeData.id value))))).
End WithStore.
End NodeField.

(** ** Reference instances of the collaborators

    An in-memory document store and a small tagged codec, used to run the
    model on concrete inputs. *)

(** Pointers are allocated from a counter; [nodes] holds the latest write
    first. *)
Record MemStore : Type := mkMem {
  next_id : positive;
  nodes : list (pyval * pyobj)
}.

Fixpoint mem_find (id : pyval) (l : list (pyval * pyobj)) : pyobj :=
  match l with
  | [] => None_
  | (k, o) :: l' => if py_eq k id then o else mem_find id l'
  end.

Definition mem_remove (id : pyval) (l : list (pyval * pyobj)) : list (pyval * pyobj) :=
  List.filter (fun kv => negb (py_eq (fst kv) id)) l.

Definition mem_store : NodeStore MemStore := {|
  ns_create := fun s data =>
    let i := PyInt (Z.pos (next_id s)) in
    (i, mkMem (Pos.succ (next_id s)) ((i, data) :: nodes s));
  ns_get := fun s id => mem_find id (nodes s);
  ns_set := fun s id data => mkMem (next_id s) ((id, data) :: nodes s);
  ns_delete := fun s id => mkMem (next_id s) (mem_remove id (nodes s))
|}.

Definition empty_store : MemStore := mkMem 1%positive [].

Definition new_world {S} (s : S) : World S := mkWorld s [] [] 0.

(** A number in unary. *)
Fixpoint tally (n : nat) : string :=
  match n with
  | O => EmptyString
  | Datatypes.S n' => String "|"%char (tally n')
  end.

Definition enc_val (v : pyval) : string :=
  match v with
  | PyNone => "N"
  | PyBool true => "T"
  | PyBool false => "F"
  | PyInt Z0 => "0"
  | PyInt (Zpos p) => String "+"%char (tally (Pos.to_nat p))
  | PyInt (Zneg p) => String "-"%char (tally (Pos.to_nat p))
  | PyStr s => String "S"%char s
  end.

Definition dec_val (s : string) : option pyval :=
  match s with
  | "N" => Some PyNone
  | "T" => Some (PyBool true)
  | "F" => Some (PyBool false)
  | "0" => Some (PyInt 0)
  | String "+"%char r => Some (PyInt (Z.pos (Pos.of_nat (String.length r))))
  | String "-"%char r => Some (PyInt (Z.neg (Pos.of_nat (String.length r))))
  | String "S"%char r => Some (PyStr r)
  | _ => None
  end.

(** The codec keeps scalars and pointer records; it is lossy on other
    documents, which this module never serializes. *)
Definition tag_codec : Codec := {|
  compress := fun bytes => String "z"%char bytes;
  decompress := fun s =>
    match s with
    | String "z"%char bytes => Some bytes
    | _ => None
    end;
  pickle_dumps := fun o =>
    match o with
    | Val v => String "V"%char (enc_val v)
    | Dict d | CanonicalKeyDict d =>
        match d !! "node_id" with
        | Some v => String "P"%char (enc_val v)
        | None => "D"
        end
    end;
  pickle_loads := fun bytes =>
    match bytes with
    | String "V"%char r => Val <$> dec_val r
    | String "P"%char r => (fun v => Dict {[ "node_id" := v ]}) <$> dec_val r
    | "D" => Some (Dict ∅)
    | _ => None
    end
|}.

Definition lenient : Settings := {| DEBUG := false |}.
Definition strict : Settings := {| DEBUG := true |}.

(** ** What the collaborators are assumed to do *)

(** [create] hands out a pointer that is true as a Python value and under
    which [get] finds the document. *)
Definition create_then_get {S} `{NodeStore S} : Prop :=
  forall (s : S) (data : pyobj),
    py_truthy (fst (ns_create s data)) = true /\
    ns_get (snd (ns_create s data)) (fst (ns_create s data)) = data.

(** [get] finds what [set] wrote. *)
Definition set_then_get {S} `{NodeStore S} : Prop :=
  forall (s : S) (id : pyval) (data : pyobj), ns_get (ns_set s id data) id = data.

(** The two transforms are reversible on pointer records, and compressed
    output is never the empty string. *)
Definition codec_reversible `{Codec} : Prop :=
  (forall bytes, decompress (compress bytes) = Some bytes) /\
  (forall bytes, compress bytes <> EmptyString) /\
  (forall id, pickle_loads (pickle_dumps (NodeField.pointer_record id))
              = Some (NodeField.pointer_record id)).

(** A wrapper that changes the kind of mapping but not its items. *)
Definition keeps_items (f : Field.t) : Prop :=
  forall o, obj_items (Field.wrap f o) = obj_items o.

(** The items of a document before and after the reserved keys are
    taken out of it. *)
Definition stored_ref (d : doc) (ref : pyval) : pyval :=
  default ref (d !! "_ref").

Definition stored_ref_version (d : doc) : pyval :=
  default PyNone (d !! "_ref_version").

Definition without_reserved (d : doc) : doc :=
  delete "_ref_version" (delete "_ref" d).

Definition no_reserved_keys (d : doc) : Prop :=
  d !! "_ref" = None /\ d !! "_ref_version" = None.

(** The same kind of mapping with other items. *)
Definition with_items (o : pyobj) (d : doc) : pyobj :=
  match o with
  | Dict _ => Dict d
  | CanonicalKeyDict _ => CanonicalKeyDict d
  | Val v => Val v
  end.

(** The condition tested by [bind_data], on the document as the caller
    passed it. *)
Definition integrity_violation (f : Field.t) (d : doc) (ref : pyval) : bool :=
  py_eq (stored_ref_version d) (Field.ref_version f)
  && negb (is_None ref)
  && py_ne (stored_ref d ref) ref.

(** ** Sample inputs *)

(** A field whose epoch is [1], without wrapper, and a fresh proxy of it. *)
Definition epoch1 : Field.t := Field.mk "data" true (PyInt 1) None.

Definition fresh (f : Field.t) : NodeData.t := NodeData.__init__ f PyNone None_.

(** A stored document made under epoch [1] for the reference [1]. *)
Definition doc_ref1 : doc :=
  <["_ref" := PyInt 1]> (<["_ref_version" := PyInt 1]> {[ "message" := PyStr "hello" ]}).

(** The world after the lazy fetch of [id]: one warning, one [get]. *)
Definition fetched_world {S} (w : World S) (id : pyval) : World S :=
  mkWorld (store w) (calls w ++ [CallGet id])
    (warnings w ++ ["You should populate node data before accessing it."])
    (logged w).

(** [nodestore.get(id) or {}] *)
Definition get_or_empty {S} `{NodeStore S} (w : World S) (id : pyval) : pyobj :=
  if obj_truthy (ns_get (store w) id) then ns_get (store w) id else Dict ∅.

(** A store that holds [doc_ref1] under the pointer [1]. *)
Definition store_ref1 : MemStore :=
  mkMem 2%positive [(PyInt 1, Dict doc_ref1)].

(** A proxy as [to_python] builds it from a pointer record: pointer set,
    body absent. *)
Definition pointing (f : Field.t) (id : pyval) : NodeData.t :=
  NodeData.__init__ f id None_.

(** The body a proxy exposes without a fetch: the bound body, or a fresh
    (wrapped) empty document. *)
Definition body_of (self : NodeData.t) : pyobj :=
  if is_not_None (NodeData._node_data self) then NodeData._node_data self
  else Field.wrap (NodeData.field self) (Dict ∅).

(** What [get_prep_value] hands to the store for a body. *)
Definition stored_form (o : pyobj) : pyobj :=
  match o with
  | CanonicalKeyDict d => Dict d
  | _ => o
  end.

(** The persisted column value that points to [id]. *)
Definition persisted `{Codec} (id : pyval) : pyval :=
  PyStr (compress (pickle_dumps (NodeField.pointer_record id))).

Definition new_pointer {S} `{NodeStore S} (w : World S) (data : pyobj) : pyval :=
  fst (ns_create (store w) data).

Definition after_create {S} `{NodeStore S} (w : World S) (data : pyobj) : World S :=
  mkWorld (snd (ns_create (store w) data)) (calls w ++ [CallCreate data])
    (warnings w) (logged w).

Definition after_set {S} `{NodeStore S} (w : World S) (id : pyval) (data : pyobj)
  : World S :=
  mkWorld (ns_set (store w) id data) (calls w ++ [CallSet id data])
    (warnings w) (logged w).

Definition after_delete {S} `{NodeStore S} (w : World S) (id : pyval) : World S :=
  mkWorld (ns_delete (store w) id) (calls w ++ [CallDelete id])
    (warnings w) (logged w).

(** The store write of [get_prep_value] and its result, from the state
    reached once the body has been read. *)
Definition write_body {S} `{NodeStore S} `{Codec}
    (value : NodeData.t) (w : World S) (data : pyobj)
  : result pyval * (NodeData.t * World S) :=
  if py_truthy (NodeData.id value)
  then (Ok (persisted (NodeData.id value)),
        (value, after_set w (NodeData.id value) data))
  else (Ok (persisted (new_pointer w data)),
        (NodeData.set_id (new_pointer w data) value, after_create w data)).

(** A proxy that has a pointer and an empty, materialized body. *)
Definition emptied (f : Field.t) (id : pyval) : NodeData.t :=
  NodeData.__init__ f id (Dict ∅).


(** A field that does not allow null. *)
Definition not_null : Field.t := Field.mk "data" false (PyInt 1) None.

Definition hello : doc := {[ "message" := PyStr "hello" ]}.

(** A bound proxy that was never saved. *)
Definition unsaved (f : Field.t) (d : doc) : NodeData.t :=
  NodeData.__init__ f PyNone (Dict d).

(** A model instance whose [data] attribute holds [value]. *)
Definition record_with (value : NodeData.t) : NodeField.instance :=
  {[ "data" := value ]}.

(** A field that wraps bodies in [CanonicalKeyDict]. *)
Definition canonical_wrapper (o : pyobj) : pyobj :=
  match make_canonical o with
  | Ok c => c
  | Raise _ => o
  end.

Definition wrapping : Field.t :=
  Field.mk "data" true (PyInt 1) (Some canonical_wrapper).

(** A proxy as it is after a load and a bind. *)
Definition loaded_event : NodeData.t :=
  NodeData.mk wrapping (PyInt 1) (PyInt 7) (PyInt 1) (CanonicalKeyDict hello).

(** The value [to_python] goes on with after its first [if]/[elif]. *)
Definition decoded_input `{Codec} (value : pyobj) : pyobj :=
  match NodeField.nonempty_string value with
  | Some s =>
      match NodeField.decode s with
      | Some v => v
      | None => Dict ∅
      end
  | None => if obj_truthy value then value else Dict ∅
  end.

(** The world after one exception has been logged. *)
Definition logged_once {S} (w : World S) : World S :=
  mkWorld (store w) (calls w) (warnings w) (Datatypes.S (logged w)).

(** Column bytes that decompress and unpickle to the integer [5]. *)
Definition pickled_five : string := "zV+|||||".

(** Column bytes that do not decompress. *)
Definition garbage : string := "not a compressed pickle".

(** A document body made under another epoch than [1], for the
    reference [1]. *)
Definition doc_old_epoch : doc :=
  <["_ref" := PyInt 1]> (<["_ref_version" := PyInt 0]> {[ "message" := PyStr "hello" ]}).

(** ** The methods that no section above needed *)

(** [iter(o)]: the keys of a mapping, the characters of a string. *)
Definition obj_iter (o : pyobj) : result (list string) :=
  match o with
  | Dict d | CanonicalKeyDict d => Ok ((map_to_list d).*1)
  | Val (PyStr s) =>
      Ok (List.map (fun c => String c EmptyString) (list_ascii_of_string s))
  | Val _ => Raise TypeError
  end.

(** [NodeData.__iter__], [NodeData.get_ref] and [NodeData.bind_ref].  The
    model instance is opaque to the proxy; [ref_func] is the [ref_func]
    attribute of the proxy's field, which [Field.t] does not carry and which
    is passed alongside. *)
Module NodeDataRef.
Section WithStore.
Context {S : Type} `{NodeStore S} (settings : Settings).
Context {Model : Type} (ref_func : option (Model -> pyval)).

(** [iter(self.data)], as the list of what the iterator yields. *)
Definition __iter__ : M (NodeData.t * World S) (list string) :=
  do (_, o) <- NodeData.read_data settings;
  lift_result (obj_iter o).

(** [if not ref_func: return] answers [None]. *)
Definition get_ref (self : NodeData.t) (instance : Model) : pyval :=
  match ref_func with
  | None => PyNone
  | Some f => f instance
  end.

(** Each of the two assignments is [self.data[key] = value], the body of
    [__setitem__]. *)
Definition bind_ref (instance : Model) : M (NodeData.t * World S) unit :=
  do self <- NodeData.self_;
  let ref := get_ref self instance in
  if py_truthy ref then
    NodeData.__setitem__ settings "_ref" ref;;
    do self <- NodeData.self_;
    NodeData.__setitem__ settings "_ref_version"
      (Field.ref_version (NodeData.field self))
  else ret tt.
End WithStore.
End NodeDataRef.

(** [NodeField.__init__]: the keyword arguments are a dict from names to
    values of any kind; the three options are popped with the default
    [None], and what is left goes to the constructor of the parent class. *)
Module NodeFieldInit.
Record options (A : Type) : Type := mk_options {
  ref_func : option A;
  ref_version : option A;
  wrapper : option A;
  super_kwargs : gmap string A
}.
Arguments mk_options {A} _ _ _ _.
Arguments ref_func {A} _.
Arguments ref_version {A} _.
Arguments wrapper {A} _.
Arguments super_kwargs {A} _.

(** [kwargs.pop(k, None)] *)
Definition pop_kwarg {A} (k : string) (kwargs : gmap string A)
  : option A * gmap string A :=
  (kwargs !! k, delete k kwargs).

Definition __init__ {A} (kwargs : gmap string A) : options A :=
  let '(ref_func, kwargs) := pop_kwarg "ref_func" kwargs in
  let '(ref_version, kwargs) := pop_kwarg "ref_version" kwargs in
  let '(wrapper, kwargs) := pop_kwarg "wrapper" kwargs in
  mk_options ref_func ref_version wrapper kwargs.
End NodeFieldInit.

(** After [delete], [get] finds nothing under the pointer: it answers
    [None] or another false value. *)
Definition delete_then_get {S} `{NodeStore S} : Prop :=
  forall (s : S) (id : pyval), obj_truthy (ns_get (ns_delete s id) id) = false.

(** The body after [bind_ref] has written the reference [r] under the
    epoch [v]. *)
Definition with_reference (d : doc) (r v : pyval) : doc :=
  <["_ref_version" := v]> (<["_ref" := r]> d).

(** The calls [get_prep_value] may make: it reads with [get], writes a
    plain object with [create] or [set], and never deletes. *)
Definition plain_write (c : store_call) : bool :=
  match c with
  | CallCreate data | CallSet _ data => negb (is_canonical data)
  | CallGet _ | CallDelete _ => false
  end.

(** A model instance with a project id, and the reference function that
    reads it. *)
Record event : Type := { project_id : Z }.

Definition by_project : option (event -> pyval) :=
  Some (fun e => PyInt (project_id e)).

(** A bound proxy of the wrapping field that was never saved. *)
Definition bound_event : NodeData.t :=
  NodeData.mk wrapping PyNone PyNone PyNone (CanonicalKeyDict hello).

(** A store that answers [None] for every pointer. *)
Definition store_missing : MemStore := mkMem 5%positive [].

(** Keyword arguments as Django sees a field declared with
    [NodeField(blank=True, null=True, ref_func=..., ref_version=1)]. *)
Definition sample_kwargs : gmap string string :=
  <["blank" := "True"]> (<["null" := "True"]>
    (<["ref_func" := "lambda x: x.project_id"]> {[ "ref_version" := "1" ]})).

(** * Properties *)

(** ** Values and objects *)

Lemma py_eq_refl (v : pyval) : py_eq v v = true.
Proof.
  destruct v as [ | b | z | s]; simpl.
  - reflexivity.
  - now destruct b.
  - apply Z.eqb_refl.
  - apply String.eqb_refl.
Qed.

Lemma py_ne_refl (v : pyval) : py_ne v v = false.
Proof. unfold py_ne. now rewrite py_eq_refl. Qed.

Lemma obj_items_with_items (o : pyobj) (d d' : doc) :
  obj_items o = Ok d -> obj_items (with_items o d') = Ok d'.
Proof. destruct o; simpl; intros Ho; try reflexivity; discriminate. Qed.

Lemma with_items_same (o : pyobj) (d : doc) :
  obj_items o = Ok d -> with_items o d = o.
Proof. destruct o; simpl; intros Ho; congruence. Qed.

Lemma obj_pop_default (o : pyobj) (d : doc) (k : string) (v : pyval) :
  obj_items o = Ok d ->
  obj_pop o k (Some v) = Ok (default v (d !! k), with_items o (delete k d)).
Proof.
  intros Ho.
  assert (Hdel : d !! k = None -> delete k d = d) by apply delete_id.
  destruct o as [d0 | d0 | v0]; simpl in *; try discriminate;
    injection Ho as ->; destruct (d !! k) eqn:Hk; simpl;
    try reflexivity; now rewrite Hdel.
Qed.

Lemma without_reserved_id (d : doc) :
  no_reserved_keys d -> without_reserved d = d.
Proof.
  intros [Href Hver]. unfold without_reserved.
  rewrite (delete_id d "_ref") by exact Href.
  now apply delete_id.
Qed.

(** ** [NodeData.bind_data] *)

(** [bind_data] on a mapping, step by step: both reserved keys leave the
    caller's mapping and land on the proxy before the check is made. *)
Lemma bind_data_run (self : NodeData.t) (data : pyobj) (d : doc) (ref : pyval) :
  obj_items data = Ok d ->
  let checked :=
    NodeData.set_ref_version (stored_ref_version d)
      (NodeData.set_ref (stored_ref d ref) self) in
  let rest := with_items data (without_reserved d) in
  NodeData.bind_data ref (self, data) =
    if integrity_violation (NodeData.field self) d ref
    then (Raise NodeIntegrityFailure, (checked, rest))
    else (Ok tt,
          (NodeData.set_node_data (Field.wrap (NodeData.field self) rest) checked,
           rest)).
Proof.
  intros Ho checked rest.
  unfold NodeData.bind_data, NodeData.pop_data, NodeData.on_self, bind, modify,
    get_state, raise.
  rewrite (obj_pop_default data d "_ref" ref Ho).
  assert (Ho1 : obj_items (with_items data (delete "_ref" d)) = Ok (delete "_ref" d))
    by now apply obj_items_with_items with d.
  rewrite (obj_pop_default _ _ "_ref_version" PyNone Ho1).
  assert (Hver : delete "_ref" d !! "_ref_version" = d !! "_ref_version")
    by now apply lookup_delete_ne.
  rewrite Hver.
  assert (Hrest : with_items (with_items data (delete "_ref" d))
                    (delete "_ref_version" (delete "_ref" d)) = rest)
    by (subst rest; now destruct data).
  rewrite Hrest.
  unfold integrity_violation, stored_ref, stored_ref_version. simpl.
  destruct (py_eq _ _ && _ && _); reflexivity.
Qed.

(** C2. [bind_data] raises [NodeIntegrityFailure] exactly when the
    [_ref_version] stored in the body equals the field's [ref_version], the
    expected reference is not [None], and the [_ref] stored in the body (the
    expected reference itself when the body has no [_ref]) differs from the
    expected reference.  In particular a body whose [_ref_version] differs
    from the field's epoch is bound without error, whatever its [_ref]. *)
Theorem bind_data_raises_iff
    (self : NodeData.t) (data : pyobj) (d : doc) (ref : pyval) :
  obj_items data = Ok d ->
  (fst (NodeData.bind_data ref (self, data)) = Raise NodeIntegrityFailure <->
     py_eq (stored_ref_version d) (Field.ref_version (NodeData.field self)) = true
     /\ ref <> PyNone
     /\ py_ne (stored_ref d ref) ref = true)
  /\ (py_eq (stored_ref_version d) (Field.ref_version (NodeData.field self)) = false ->
      fst (NodeData.bind_data ref (self, data)) = Ok tt).
Proof.
  intros Ho. rewrite (bind_data_run self data d ref Ho).
  unfold integrity_violation.
  destruct (py_eq (stored_ref_version d) _) eqn:Hepoch; simpl.
  - split; [ | discriminate ].
    destruct (is_None ref) eqn:Hnone; simpl.
    + split; [ discriminate | ].
      intros (_ & Href & _). destruct ref; simpl in Hnone; congruence.
    + destruct (py_ne (stored_ref d ref) ref) eqn:Hne; simpl.
      * split; [ intros _ | reflexivity ].
        repeat split. intros ->. discriminate Hnone.
      * split; [ discriminate | intros (_ & _ & Hd); discriminate Hd ].
  - split; [ | reflexivity ].
    split; [ discriminate | intros (Ht & _); discriminate Ht ].
Qed.

Lemma bind_data_raises_iff_witness :
  fst (NodeData.bind_data (PyInt 2) (fresh epoch1, Dict doc_ref1))
    = Raise NodeIntegrityFailure
  /\ fst (NodeData.bind_data (PyInt 1) (fresh epoch1, Dict doc_ref1)) <> Raise NodeIntegrityFailure
  /\ fst (NodeData.bind_data (PyInt 2) (fresh epoch1, Dict doc_old_epoch)) = Ok tt.
Proof.
  split; [ | split ].
  - apply (proj1 (bind_data_raises_iff (fresh epoch1) (Dict doc_ref1) doc_ref1
                    (PyInt 2) eq_refl)).
    split; [ reflexivity | split; [ discriminate | reflexivity ] ].
  - intros Hraise.
    apply (proj1 (bind_data_raises_iff (fresh epoch1) (Dict doc_ref1) doc_ref1
                    (PyInt 1) eq_refl)) in Hraise.
    destruct Hraise as (_ & _ & Hne). discriminate Hne.
  - apply (proj2 (bind_data_raises_iff (fresh epoch1) (Dict doc_old_epoch) doc_old_epoch
                    (PyInt 2) eq_refl)).
    reflexivity.
Defined.

(** C7, as stated, fails: the failed call has already overwritten [ref] and
    [ref_version] on the proxy and taken the reserved keys out of the
    caller's mapping. *)
Lemma bind_data_failure_not_atomic :
  let before := (fresh epoch1, Dict doc_ref1) in
  let after := snd (NodeData.bind_data (PyInt 2) before) in
  fst (NodeData.bind_data (PyInt 2) before) = Raise NodeIntegrityFailure
  /\ NodeData.ref (fst before) = PyNone /\ NodeData.ref (fst after) = PyInt 1
  /\ NodeData.ref_version (fst before) = PyNone
  /\ NodeData.ref_version (fst after) = PyInt 1
  /\ snd after = Dict {[ "message" := PyStr "hello" ]}
  /\ after <> before.
Proof.
  cbv zeta. repeat split; try reflexivity.
  intros Heq. apply (f_equal (fun st => NodeData.ref (fst st))) in Heq.
  vm_compute in Heq. discriminate Heq.
Qed.

(** C7, amended.  When [bind_data] raises [NodeIntegrityFailure] the
    proxy's body, pointer and field are what they were before the call, so a
    body that was absent is still absent; [ref] and [ref_version] hold the
    values taken from the caller's mapping, and that mapping has lost its
    reserved keys. *)
Theorem bind_data_failure_state
    (self : NodeData.t) (data : pyobj) (d : doc) (ref : pyval) :
  obj_items data = Ok d ->
  fst (NodeData.bind_data ref (self, data)) = Raise NodeIntegrityFailure ->
  let self' := fst (snd (NodeData.bind_data ref (self, data))) in
  let data' := snd (snd (NodeData.bind_data ref (self, data))) in
  NodeData._node_data self' = NodeData._node_data self
  /\ NodeData.id self' = NodeData.id self
  /\ NodeData.field self' = NodeData.field self
  /\ NodeData.ref self' = stored_ref d ref
  /\ NodeData.ref_version self' = stored_ref_version d
  /\ data' = with_items data (without_reserved d).
Proof.
  intros Ho. rewrite (bind_data_run self data d ref Ho).
  destruct (integrity_violation _ d ref); simpl.
  - intros _. repeat split.
  - discriminate.
Qed.

Lemma bind_data_failure_state_witness :
  let run := NodeData.bind_data (PyInt 2) (fresh epoch1, Dict doc_ref1) in
  NodeData._node_data (fst (snd run)) = None_
  /\ NodeData.id (fst (snd run)) = PyNone
  /\ NodeData.field (fst (snd run)) = epoch1
  /\ NodeData.ref (fst (snd run)) = stored_ref doc_ref1 (PyInt 2)
  /\ NodeData.ref_version (fst (snd run)) = stored_ref_version doc_ref1
  /\ snd (snd run) = with_items (Dict doc_ref1) (without_reserved doc_ref1).
Proof.
  exact (bind_data_failure_state (fresh epoch1) (Dict doc_ref1) doc_ref1 (PyInt 2)
           eq_refl eq_refl).
Defined.


(** ** The [data] property *)
Section Data.
Context {S : Type} `{NodeStore S} (settings : Settings).

Lemma data_bound (self : NodeData.t) (w : World S) :
  is_not_None (NodeData._node_data self) = true ->
  NodeData.data settings (self, w) = (Ok NodeData.Own, (self, w)).
Proof.
  intros Hb. unfold NodeData.data, bind, NodeData.self_. now rewrite Hb.
Qed.

Lemma data_unbound_empty (self : NodeData.t) (w : World S) :
  is_not_None (NodeData._node_data self) = false ->
  py_truthy (NodeData.id self) = false ->
  NodeData.data settings (self, w) =
    (Ok (NodeData.Temp (Field.wrap (NodeData.field self) (Dict ∅))), (self, w)).
Proof.
  intros Hb Hid. unfold NodeData.data, bind, NodeData.self_.
  now rewrite Hb, Hid.
Qed.

Lemma data_strict (self : NodeData.t) (w : World S) :
  is_not_None (NodeData._node_data self) = false ->
  py_truthy (NodeData.id self) = true ->
  DEBUG settings = true ->
  NodeData.data settings (self, w) = (Raise NodeUnpopulated, (self, w)).
Proof.
  intros Hb Hid Hdebug. unfold NodeData.data, bind, NodeData.self_.
  now rewrite Hb, Hid, Hdebug.
Qed.

Lemma data_lenient (self : NodeData.t) (w : World S) :
  is_not_None (NodeData._node_data self) = false ->
  py_truthy (NodeData.id self) = true ->
  DEBUG settings = false ->
  let bound := NodeData.bind_data PyNone (self, get_or_empty w (NodeData.id self)) in
  NodeData.data settings (self, w) =
    (match fst bound with Ok _ => Ok NodeData.Own | Raise e => Raise e end,
     (fst (snd bound), fetched_world w (NodeData.id self))).
Proof.
  intros Hb Hid Hdebug bound.
  unfold NodeData.data, bind, NodeData.self_. rewrite Hb, Hid, Hdebug.
  unfold NodeData.in_world, warn, modify, nodestore.get, NodeData.call_bind_data.
  simpl. fold (get_or_empty w (NodeData.id self)). subst bound.
  destruct (NodeData.bind_data PyNone (self, get_or_empty w (NodeData.id self)))
    as [[u | e] [self' data']]; reflexivity.
Qed.
End Data.





(** ** Memoization of the body *)
Section Memo.
Context {S : Type} `{NodeStore S} (settings : Settings).

(** The branch without a pointer does not keep the empty document it
    produces: a write to a proxy that has neither pointer nor body
    succeeds, changes nothing, and the read that follows raises
    [KeyError]. *)
Lemma unbound_write_is_lost
    (self : NodeData.t) (w : World S) (key : string) (value : pyval) :
  is_not_None (NodeData._node_data self) = false ->
  py_truthy (NodeData.id self) = false ->
  obj_items (Field.wrap (NodeData.field self) (Dict ∅)) = Ok ∅ ->
  NodeData.__setitem__ settings key value (self, w) = (Ok tt, (self, w))
  /\ NodeData.__getitem__ settings key (self, w) = (Raise KeyError, (self, w))
  /\ (NodeData.__setitem__ settings key value;;
      NodeData.__getitem__ settings key) (self, w) = (Raise KeyError, (self, w)).
Proof.
  intros Hb Hid Hwrap.
  assert (Hset : NodeData.__setitem__ settings key value (self, w) = (Ok tt, (self, w))).
  { unfold NodeData.__setitem__, NodeData.read_data, bind.
    rewrite (data_unbound_empty settings self w Hb Hid).
    unfold NodeData.self_, ret, lift_result. simpl NodeData.deref.
    destruct (Field.wrap _ _) as [d0 | d0 | v0]; simpl in Hwrap; try discriminate Hwrap;
      reflexivity. }
  assert (Hget : NodeData.__getitem__ settings key (self, w) = (Raise KeyError, (self, w))).
  { unfold NodeData.__getitem__, NodeData.read_data, bind.
    rewrite (data_unbound_empty settings self w Hb Hid).
    unfold NodeData.self_, ret, lift_result. simpl NodeData.deref.
    destruct (Field.wrap _ _) as [d0 | d0 | v0]; simpl in Hwrap; try discriminate Hwrap;
      injection Hwrap as ->; reflexivity. }
  split; [ exact Hset | split; [ exact Hget | ] ].
  unfold bind at 1. rewrite Hset. exact Hget.
Qed.

(** C3, amended.  Materialization of a proxy that has a pointer is
    memoized.  In lenient mode the first access that finds the body absent
    makes one [get] on the store, binds what it fetched and keeps it on the
    proxy; every later access returns that body from the proxy without a
    call to the store, whatever the store holds by then, so reads return the
    values fetched first.  In strict mode that first access raises
    [NodeUnpopulated] and changes nothing. *)
Theorem lazy_fetch_memoized (self : NodeData.t) (w : World S) (d : doc) :
  is_not_None (NodeData._node_data self) = false ->
  py_truthy (NodeData.id self) = true ->
  obj_items (get_or_empty w (NodeData.id self)) = Ok d ->
  let body :=
    Field.wrap (NodeData.field self)
      (with_items (get_or_empty w (NodeData.id self)) (without_reserved d)) in
  is_not_None body = true ->
  (DEBUG settings = false ->
   exists self1,
     NodeData.data settings (self, w)
       = (Ok NodeData.Own, (self1, fetched_world w (NodeData.id self)))
     /\ calls (fetched_world w (NodeData.id self))
        = (calls w ++ [CallGet (NodeData.id self)])%list
     /\ NodeData._node_data self1 = body
     /\ forall (w2 : World S) (key : string),
          NodeData.data settings (self1, w2) = (Ok NodeData.Own, (self1, w2))
          /\ NodeData.__getitem__ settings key (self1, w2)
             = (obj_getitem body key, (self1, w2)))
  /\ (DEBUG settings = true ->
      NodeData.data settings (self, w) = (Raise NodeUnpopulated, (self, w))).
Proof.
  intros Hb Hid Hd body Hbody. split; intros Hdebug.
  - pose proof (data_lenient settings self w Hb Hid Hdebug) as Hrun.
    cbv zeta in Hrun.
    rewrite (bind_data_run self _ d PyNone Hd) in Hrun.
    unfold integrity_violation in Hrun. simpl is_None in Hrun.
    rewrite andb_false_r in Hrun. simpl in Hrun. fold body in Hrun.
    eexists. split; [ exact Hrun | ].
    split; [ reflexivity | split; [ reflexivity | ] ].
    intros w2 key.
    set (self1 := NodeData.set_node_data body _).
    assert (Hbound : is_not_None (NodeData._node_data self1) = true) by exact Hbody.
    split; [ now apply data_bound | ].
    unfold NodeData.__getitem__, NodeData.read_data, bind.
    rewrite (data_bound settings self1 w2 Hbound). reflexivity.
  - now apply data_strict.
Qed.
End Memo.

(** C3, as stated, fails.  A proxy with neither pointer nor body does not
    keep the empty document that an access produces: the write is lost, the
    read raises [KeyError], and the body is still absent.  And in strict
    mode the first access to a proxy with a pointer stores nothing: it
    raises. *)
Lemma materialization_not_always_stored :
  let self := fresh epoch1 in
  let w := new_world empty_store in
  (@NodeData.__setitem__ MemStore mem_store lenient "message" (PyStr "hello");;
   @NodeData.__getitem__ MemStore mem_store lenient "message") (self, w)
    = (Raise KeyError, (self, w))
  /\ NodeData._node_data self = None_
  /\ @NodeData.data MemStore mem_store strict
       (pointing epoch1 (PyInt 1), new_world store_ref1)
     = (Raise NodeUnpopulated, (pointing epoch1 (PyInt 1), new_world store_ref1)).
Proof.
  split; [ | split; reflexivity ].
  exact (proj2 (proj2 (@unbound_write_is_lost MemStore mem_store lenient (fresh epoch1)
                         (new_world empty_store) "message" (PyStr "hello")
                         eq_refl eq_refl eq_refl))).
Qed.

Lemma lazy_fetch_memoized_witness :
  let self := pointing epoch1 (PyInt 1) in
  let w := new_world store_ref1 in
  (exists self1,
     @NodeData.data MemStore mem_store lenient (self, w)
       = (Ok NodeData.Own, (self1, fetched_world w (PyInt 1)))
     /\ calls (fetched_world w (PyInt 1)) = [CallGet (PyInt 1)]
     /\ NodeData._node_data self1 = Dict hello
     /\ forall (w2 : World MemStore) (key : string),
          @NodeData.data MemStore mem_store lenient (self1, w2)
            = (Ok NodeData.Own, (self1, w2))
          /\ @NodeData.__getitem__ MemStore mem_store lenient key (self1, w2)
             = (obj_getitem (Dict hello) key, (self1, w2)))
  /\ @NodeData.data MemStore mem_store strict (self, w)
     = (Raise NodeUnpopulated, (self, w)).
Proof.
  split.
  - apply (proj1 (@lazy_fetch_memoized MemStore mem_store lenient
                    (pointing epoch1 (PyInt 1)) (new_world store_ref1) doc_ref1
                    eq_refl eq_refl eq_refl eq_refl)).
    reflexivity.
  - apply (proj2 (@lazy_fetch_memoized MemStore mem_store strict
                    (pointing epoch1 (PyInt 1)) (new_world store_ref1) doc_ref1
                    eq_refl eq_refl eq_refl eq_refl)).
    reflexivity.
Defined.

(** ** [NodeField.get_prep_value] *)
Section Save.
Context {S : Type} `{NodeStore S} `{Codec} (settings : Settings).

(** Once [len(value)] has returned, the body is readable without a
    further fetch and the pointer is what it was. *)
Lemma len_then_read (value : NodeData.t) (w : World S) (n : nat)
    (st1 : NodeData.t * World S) :
  NodeData.__len__ settings (value, w) = (Ok n, st1) ->
  obj_len (body_of (fst st1)) = Ok n
  /\ NodeData.id (fst st1) = NodeData.id value
  /\ exists r, NodeData.read_data settings st1 = (Ok (r, body_of (fst st1)), st1).
Proof.
  unfold NodeData.__len__, NodeData.read_data.
  destruct (is_not_None (NodeData._node_data value)) eqn:Hb.
  - unfold bind at 1 2. rewrite (data_bound settings value w Hb).
    unfold bind, NodeData.self_, ret, lift_result. simpl NodeData.deref.
    intros Hlen.
    destruct (obj_len (NodeData._node_data value)) as [m | e] eqn:Hm;
      inversion Hlen; subst; clear Hlen. simpl fst.
    unfold body_of. rewrite Hb. repeat split; [ exact Hm | ].
    exists NodeData.Own. rewrite (data_bound settings value w Hb). reflexivity.
  - destruct (py_truthy (NodeData.id value)) eqn:Hid.
    + destruct (DEBUG settings) eqn:Hdebug.
      * unfold bind at 1 2. rewrite (data_strict settings value w Hb Hid Hdebug).
        discriminate.
      * unfold bind at 1 2. rewrite (data_lenient settings value w Hb Hid Hdebug).
        destruct (NodeData.bind_data PyNone (value, get_or_empty w (NodeData.id value)))
          as [[u | e] [value1 data1]] eqn:Hbind; simpl fst; simpl snd; [ | discriminate ].
        unfold bind, NodeData.self_, ret, lift_result. simpl NodeData.deref.
        intros Hlen.
        destruct (obj_len (NodeData._node_data value1)) as [m | e] eqn:Hm;
          inversion Hlen; subst; clear Hlen. simpl fst.
        assert (Hb1 : is_not_None (NodeData._node_data value1) = true).
        { destruct (NodeData._node_data value1) as [d0 | d0 | [ | b | z | s]];
            try reflexivity. discriminate Hm. }
        assert (Hid1 : NodeData.id value1 = NodeData.id value).
        { unfold NodeData.bind_data, NodeData.pop_data, NodeData.on_self, bind,
            modify, get_state, raise in Hbind.
          destruct (obj_pop (get_or_empty w (NodeData.id value)) "_ref" (Some PyNone))
            as [[r1 o1] | e1]; [ | discriminate Hbind ].
          simpl in Hbind.
          destruct (obj_pop o1 "_ref_version" (Some PyNone))
            as [[r2 o2] | e2]; [ | discriminate Hbind ].
          simpl in Hbind.
          destruct (py_eq r2 _ && _ && _); inversion Hbind; reflexivity. }
        unfold body_of. rewrite Hb1. repeat split; [ exact Hm | exact Hid1 | ].
        exists NodeData.Own. rewrite (data_bound settings value1 _ Hb1). reflexivity.
    + unfold bind at 1 2. rewrite (data_unbound_empty settings value w Hb Hid).
      unfold bind, NodeData.self_, ret, lift_result. simpl NodeData.deref.
      intros Hlen.
      destruct (obj_len (Field.wrap (NodeData.field value) (Dict ∅))) as [m | e] eqn:Hm;
        inversion Hlen; subst; clear Hlen. simpl fst.
      unfold body_of. rewrite Hb. repeat split; [ exact Hm | ].
      eexists. rewrite (data_unbound_empty settings value w Hb Hid). reflexivity.
Qed.

(** [get_prep_value] in one step: the truth test reads the length of the
    body; then either nothing is written, or the body goes to the store. *)
Lemma get_prep_value_run (self : Field.t) (value : NodeData.t) (w : World S) :
  NodeField.get_prep_value settings self (value, w) =
    match NodeData.__len__ settings (value, w) with
    | (Ok n, (value1, w1)) =>
        if Nat.eqb n 0 && Field.null self then (Ok PyNone, (value1, w1))
        else write_body value1 w1 (stored_form (body_of value1))
    | (Raise e, st) => (Raise e, st)
    end.
Proof.
  unfold NodeField.get_prep_value, NodeData.truth_value.
  unfold bind at 1 2.
  destruct (NodeData.__len__ settings (value, w)) as [[n | e] [value1 w1]] eqn:Hlen;
    [ | reflexivity ].
  destruct (len_then_read value w n (value1, w1) Hlen) as (_ & _ & r & Hread).
  simpl fst in Hread. unfold ret at 1. rewrite negb_involutive.
  destruct (Nat.eqb n 0 && Field.null self); [ reflexivity | ].
  unfold bind at 1. rewrite Hread.
  unfold write_body, persisted, new_pointer, after_create, after_set.
  destruct (body_of value1) as [d | d | v]; simpl;
    unfold bind, NodeData.self_, NodeData.in_world, NodeData.update, modify, ret,
      nodestore.create, nodestore.set; simpl;
    destruct (py_truthy (NodeData.id value1)); simpl; try reflexivity;
    destruct (ns_create (store w1) _) as [i s1]; reflexivity.
Qed.

Lemma len_bound (value : NodeData.t) (w : World S) :
  is_not_None (NodeData._node_data value) = true ->
  NodeData.__len__ settings (value, w)
    = (obj_len (NodeData._node_data value), (value, w)).
Proof.
  intros Hb. unfold NodeData.__len__, NodeData.read_data.
  unfold bind at 1 2. rewrite (data_bound settings value w Hb).
  unfold bind, NodeData.self_, ret, lift_result. reflexivity.
Qed.

Lemma body_of_bound (value : NodeData.t) :
  is_not_None (NodeData._node_data value) = true ->
  body_of value = NodeData._node_data value.
Proof. intros Hb. unfold body_of. now rewrite Hb. Qed.

(** A save of a bound proxy that is not persisted as null. *)
Lemma save_bound (self : Field.t) (value : NodeData.t) (w : World S) (n : nat) :
  is_not_None (NodeData._node_data value) = true ->
  obj_len (NodeData._node_data value) = Ok n ->
  Nat.eqb n 0 && Field.null self = false ->
  NodeField.get_prep_value settings self (value, w)
    = write_body value w (stored_form (NodeData._node_data value)).
Proof.
  intros Hb Hn Hnull.
  rewrite get_prep_value_run, (len_bound value w Hb), Hn, Hnull.
  now rewrite body_of_bound.
Qed.

(** C4, amended.  Whenever the length of the body can be taken,
    [get_prep_value] persists [None] exactly when the field allows null
    and the body is empty, with or without a pointer, and then makes no
    write to the store; in every other case it hands the body (flattened
    to a plain dict) to the store, by [set] under the pointer the proxy
    has or by [create] when it has none, and persists the compressed
    pointer record of the proxy's pointer. *)
Theorem null_iff_empty_body
    (self : Field.t) (value : NodeData.t) (w : World S)
    (n : nat) (st1 : NodeData.t * World S) :
  NodeData.__len__ settings (value, w) = (Ok n, st1) ->
  let out := NodeField.get_prep_value settings self (value, w) in
  let body := stored_form (body_of (fst st1)) in
  (fst out = Ok PyNone <-> Field.null self = true /\ n = 0)
  /\ (fst out = Ok PyNone -> snd out = st1)
  /\ (fst out <> Ok PyNone ->
      fst out = Ok (persisted (NodeData.id (fst (snd out))))
      /\ calls (snd (snd out)) =
           (calls (snd st1) ++
             [if py_truthy (NodeData.id value)
              then CallSet (NodeData.id value) body
              else CallCreate body])%list
      /\ out = write_body (fst st1) (snd st1) body).
Proof.
  intros Hlen out body. subst out.
  destruct (len_then_read value w n st1 Hlen) as (_ & Hid & _).
  rewrite get_prep_value_run, Hlen. destruct st1 as [value1 w1].
  simpl fst in *. simpl snd in *. fold body.
  assert (Hwrite : fst (write_body value1 w1 body) <> Ok PyNone).
  { unfold write_body, persisted. destruct (py_truthy (NodeData.id value1)); discriminate. }
  destruct (Nat.eqb n 0 && Field.null self) eqn:Hnull.
  - apply andb_true_iff in Hnull as [Hn Hf]. apply Nat.eqb_eq in Hn.
    simpl fst. simpl snd. split; [ | split ].
    + split; [ intros _; split; assumption | reflexivity ].
    + reflexivity.
    + intros Hne. now contradiction Hne.
  - split; [ | split ].
    + split; [ intros Hout; now contradiction Hwrite | ].
      intros [Hf ->]. rewrite Hf in Hnull. discriminate Hnull.
    + intros Hout. now contradiction Hwrite.
    + intros _. unfold write_body, persisted, after_set, after_create.
      rewrite <- Hid.
      destruct (py_truthy (NodeData.id value1)); simpl; repeat split.
Qed.
End Save.

(** C4, as stated, fails: with [null] enabled a proxy that has a pointer
    and an empty body is persisted as [None], and nothing is written to the
    store. *)
Lemma null_persisted_despite_pointer :
  let value := emptied epoch1 (PyInt 1) in
  let w := new_world store_ref1 in
  py_truthy (NodeData.id value) = true
  /\ Field.null epoch1 = true
  /\ @NodeField.get_prep_value MemStore mem_store tag_codec lenient epoch1 (value, w)
     = (Ok PyNone, (value, w))
  /\ calls w = [].
Proof. repeat split. Qed.

Lemma null_iff_empty_body_witness :
  let value := unsaved epoch1 hello in
  let w := new_world empty_store in
  let out := @NodeField.get_prep_value MemStore mem_store tag_codec lenient epoch1 (value, w) in
  let body := stored_form (body_of value) in
  (fst out = Ok PyNone <-> Field.null epoch1 = true /\ 1 = 0)
  /\ (fst out = Ok PyNone -> snd out = (value, w))
  /\ (fst out <> Ok PyNone ->
      fst out = Ok (@persisted tag_codec (NodeData.id (fst (snd out))))
      /\ calls (snd (snd out)) =
           (calls w ++
             [if py_truthy (NodeData.id value)
              then CallSet (NodeData.id value) body
              else CallCreate body])%list
      /\ out = @write_body MemStore mem_store tag_codec value w body).
Proof.
  exact (@null_iff_empty_body MemStore mem_store tag_codec lenient epoch1
           (unsaved epoch1 hello) (new_world empty_store) 1
           (unsaved epoch1 hello, new_world empty_store) eq_refl).
Defined.

Section CreateThenSet.
Context {S : Type} `{NodeStore S} `{Codec} (settings : Settings).

(** A save of a bound proxy that has a pointer is one [set] under that
    pointer. *)
Lemma save_with_pointer (self : Field.t) (value : NodeData.t) (w : World S) (n : nat) :
  is_not_None (NodeData._node_data value) = true ->
  obj_len (NodeData._node_data value) = Ok n ->
  Nat.eqb n 0 && Field.null self = false ->
  py_truthy (NodeData.id value) = true ->
  NodeField.get_prep_value settings self (value, w)
    = (Ok (persisted (NodeData.id value)),
       (value, after_set w (NodeData.id value) (stored_form (NodeData._node_data value)))).
Proof.
  intros Hb Hn Hnull Hid.
  rewrite (save_bound settings self value w n Hb Hn Hnull).
  unfold write_body. now rewrite Hid.
Qed.


End CreateThenSet.



(** ** [NodeField.on_delete] *)

(** C9.  When the owning record is deleted and the field's proxy has a
    pointer, the hook makes exactly one call to the store,
    [delete(pointer)]; when the proxy has no pointer it makes no call and
    changes nothing. *)
Theorem delete_propagation
    {S : Type} `{NodeStore S} (self : Field.t) (inst : NodeField.instance)
    (value : NodeData.t) (w : World S) :
  inst !! Field.name self = Some value ->
  (py_truthy (NodeData.id value) = true ->
     NodeField.on_delete self inst w = (Ok tt, after_delete w (NodeData.id value))
     /\ calls (snd (NodeField.on_delete self inst w))
        = (calls w ++ [CallDelete (NodeData.id value)])%list)
  /\ (py_truthy (NodeData.id value) = false ->
     NodeField.on_delete self inst w = (Ok tt, w)).
Proof.
  intros Hattr.
  unfold NodeField.on_delete, NodeField.getattr, bind, lift_result.
  rewrite Hattr. split; intros Hid; rewrite Hid; simpl.
  - split; reflexivity.
  - reflexivity.
Qed.

Lemma delete_propagation_witness :
  let w := new_world store_ref1 in
  (@NodeField.on_delete MemStore mem_store epoch1
     (record_with (pointing epoch1 (PyInt 1))) w
     = (Ok tt, @after_delete MemStore mem_store w (PyInt 1))
   /\ calls (snd (@NodeField.on_delete MemStore mem_store epoch1
                    (record_with (pointing epoch1 (PyInt 1))) w))
      = [CallDelete (PyInt 1)])
  /\ @NodeField.on_delete MemStore mem_store epoch1 (record_with (fresh epoch1)) w
     = (Ok tt, w).
Proof.
  split.
  - apply (proj1 (@delete_propagation MemStore mem_store epoch1
                    (record_with (pointing epoch1 (PyInt 1))) (pointing epoch1 (PyInt 1))
                    (new_world store_ref1) eq_refl)).
    reflexivity.
  - apply (proj2 (@delete_propagation MemStore mem_store epoch1
                    (record_with (fresh epoch1)) (fresh epoch1)
                    (new_world store_ref1) eq_refl)).
    reflexivity.
Defined.

(** ** Pickling *)

(** C10.  For a proxy whose body is materialized, [__getstate__] succeeds,
    carries the body as a plain dict together with the flag that tells
    whether it was a canonical dict, and [__setstate__] of that state gives
    back the proxy: same field, pointer, [ref], [ref_version], and a body of
    the same kind with the same items.  For a proxy whose body is absent
    [__getstate__] fails. *)
Theorem pickle_roundtrip (self : NodeData.t) (d : doc) :
  obj_items (NodeData._node_data self) = Ok d ->
  (exists st,
     NodeData.__getstate__ self = Ok st
     /\ NodeData.st_node_data st = Dict d
     /\ NodeData.st_node_data_CANONICAL st
        = Some (is_canonical (NodeData._node_data self))
     /\ NodeData.st_id st = NodeData.id self
     /\ NodeData.st_ref st = NodeData.ref self
     /\ NodeData.st_ref_version st = NodeData.ref_version self
     /\ NodeData.__setstate__ st = Ok self)
  /\ (forall unbound : NodeData.t,
        NodeData._node_data unbound = None_ ->
        NodeData.__getstate__ unbound = Raise AttributeError).
Proof.
  intros Hd. split.
  - destruct self as [f i r rv body]. simpl in Hd.
    destruct body as [d0 | d0 | v0]; simpl in Hd; try discriminate Hd;
      injection Hd as ->; eexists; repeat split.
  - intros [f i r rv body]. simpl. intros ->. reflexivity.
Qed.

Lemma pickle_roundtrip_witness :
  (exists st,
     NodeData.__getstate__ loaded_event = Ok st
     /\ NodeData.st_node_data st = Dict hello
     /\ NodeData.st_node_data_CANONICAL st
        = Some (is_canonical (NodeData._node_data loaded_event))
     /\ NodeData.st_id st = NodeData.id loaded_event
     /\ NodeData.st_ref st = NodeData.ref loaded_event
     /\ NodeData.st_ref_version st = NodeData.ref_version loaded_event
     /\ NodeData.__setstate__ st = Ok loaded_event)
  /\ (forall unbound : NodeData.t,
        NodeData._node_data unbound = None_ ->
        NodeData.__getstate__ unbound = Raise AttributeError).
Proof.
  exact (pickle_roundtrip loaded_event hello eq_refl).
Defined.

(** ** [NodeField.to_python] *)
Section Decode.
Context {S : Type} `{NodeStore S} `{Codec}.

Lemma mapping_is_not_None (o : pyobj) (d : doc) :
  obj_items o = Ok d -> is_not_None o = true.
Proof. destruct o as [d0 | d0 | v0]; simpl; intros Ho; try reflexivity; discriminate. Qed.

(** A string that fails to decode becomes the empty document, with one
    exception logged; the proxy has no pointer and its body is the
    (wrapped) empty document. *)
Lemma to_python_undecodable (self : Field.t) (s : string) (w : World S) :
  s <> EmptyString ->
  NodeField.decode s = None ->
  NodeField.to_python self (Val (PyStr s)) w
    = (Ok (NodeData.__init__ self PyNone (Field.wrap self (Dict ∅))), logged_once w).
Proof.
  intros Hs Hdec. unfold NodeField.to_python, NodeField.nonempty_string.
  apply String.eqb_neq in Hs. rewrite Hs, Hdec.
  reflexivity.
Qed.

(** On an input that is, or decodes to, a mapping, [to_python] returns a
    proxy: with the pointer and no body when the mapping has a [node_id],
    with the mapping as body otherwise. *)
Lemma to_python_mapping (self : Field.t) (value : pyobj) (w : World S) (d : doc) :
  obj_items (decoded_input value) = Ok d ->
  exists w',
    calls w' = calls w /\ store w' = store w
    /\ NodeField.to_python self value w
       = (Ok (match d !! "node_id" with
              | Some node_id => NodeData.__init__ self node_id None_
              | None =>
                  NodeData.__init__ self PyNone (Field.wrap self (decoded_input value))
              end), w').
Proof.
  unfold decoded_input, NodeField.to_python. intros Hd.
  destruct (NodeField.nonempty_string value) as [s | ] eqn:Hstr.
  - destruct (NodeField.decode s) as [v | ] eqn:Hdec.
    + exists w. repeat split.
      destruct v as [d0 | d0 | v0]; simpl in Hd; try discriminate Hd;
        injection Hd as ->; unfold bind, ret, lift_result; simpl;
        destruct (d !! "node_id") as [i | ] eqn:Hid; simpl; reflexivity.
    + exists (logged_once w). repeat split. simpl in Hd. injection Hd as <-.
      reflexivity.
  - destruct (obj_truthy value) eqn:Htruth; simpl negb; cbv iota.
    + exists w. repeat split.
      destruct value as [d0 | d0 | v0]; simpl in Hd; try discriminate Hd;
        injection Hd as ->; unfold bind, ret, lift_result; simpl;
        destruct (d !! "node_id") as [i | ] eqn:Hid; simpl; reflexivity.
    + exists w. repeat split. simpl in Hd. injection Hd as <-. reflexivity.
Qed.
End Decode.

(** C8, as stated, fails: [to_python] is not total.  Bytes that decompress
    and unpickle to something that is not a container, here the integer
    [5], make the membership test after the [try] raise [TypeError]; so does
    the integer itself passed as the value. *)
Lemma to_python_raises_on_scalar :
  let w := new_world empty_store in
  @NodeField.decode tag_codec pickled_five = Some (Val (PyInt 5))
  /\ @NodeField.to_python MemStore tag_codec epoch1 (Val (PyStr pickled_five)) w
     = (Raise TypeError, w)
  /\ @NodeField.to_python MemStore tag_codec epoch1 (Val (PyInt 5)) w
     = (Raise TypeError, w).
Proof. repeat split. Qed.

(** C8, amended.  [to_python] returns a proxy, without raising and without
    a call to the store, whenever its input is empty or absent, is a
    mapping, or is a string that decodes to a mapping.  When the input is a
    non-empty string whose decompression or deserialization fails, the
    failure is logged and the result is a proxy with no pointer whose body,
    read in either mode and with any store, is the empty document. *)
Theorem to_python_tolerates_corruption
    {S : Type} `{NodeStore S} `{Codec} (self : Field.t) (value : pyobj) (w : World S) :
  obj_items (Field.wrap self (Dict ∅)) = Ok ∅ ->
  (forall d : doc,
     obj_items (decoded_input value) = Ok d ->
     exists loaded w',
       NodeField.to_python self value w = (Ok loaded, w')
       /\ calls w' = calls w)
  /\ (forall s : string,
        value = Val (PyStr s) ->
        s <> EmptyString ->
        NodeField.decode s = None ->
        exists loaded,
          NodeField.to_python self value w = (Ok loaded, logged_once w)
          /\ NodeData.id loaded = PyNone
          /\ forall (settings : Settings) (w2 : World S),
               exists body,
                 NodeData.read_data settings (loaded, w2)
                   = (Ok (NodeData.Own, body), (loaded, w2))
                 /\ obj_items body = Ok ∅).
Proof.
  intros Hwrap. split.
  - intros d Hd.
    destruct (to_python_mapping self value w d Hd) as (w' & Hcalls & _ & Hrun).
    eexists. exists w'. split; [ exact Hrun | exact Hcalls ].
  - intros s -> Hs Hdec.
    eexists. split; [ now apply to_python_undecodable | ].
    split; [ reflexivity | ].
    intros settings w2. exists (Field.wrap self (Dict ∅)).
    split; [ | exact Hwrap ].
    unfold NodeData.read_data, bind.
    rewrite data_bound; [ reflexivity | ].
    simpl. now apply mapping_is_not_None with ∅.
Qed.

Lemma to_python_tolerates_corruption_witness :
  let w := new_world empty_store in
  (exists loaded w',
     @NodeField.to_python MemStore tag_codec wrapping (Val (PyStr garbage)) w
       = (Ok loaded, w')
     /\ calls w' = calls w)
  /\ (exists loaded,
        @NodeField.to_python MemStore tag_codec wrapping (Val (PyStr garbage)) w
          = (Ok loaded, logged_once w)
        /\ NodeData.id loaded = PyNone
        /\ forall (settings : Settings) (w2 : World MemStore),
             exists body,
               @NodeData.read_data MemStore mem_store settings (loaded, w2)
                 = (Ok (NodeData.Own, body), (loaded, w2))
               /\ obj_items body = Ok ∅).
Proof.
  split.
  - apply (proj1 (@to_python_tolerates_corruption MemStore mem_store tag_codec wrapping
                    (Val (PyStr garbage)) (new_world empty_store) eq_refl) ∅).
    reflexivity.
  - apply (proj2 (@to_python_tolerates_corruption MemStore mem_store tag_codec wrapping
                    (Val (PyStr garbage)) (new_world empty_store) eq_refl) garbage).
    + reflexivity.
    + discriminate.
    + reflexivity.
Defined.

(** ** The round trip through the codec *)
Section RoundTrip.
Context {S : Type} `{NodeStore S} `{Codec}.

Lemma mapping_len (o : pyobj) (d : doc) :
  obj_items o = Ok d -> obj_len o = Ok (size d).
Proof. destruct o as [d0 | d0 | v0]; simpl; intros Ho; congruence. Qed.

Lemma mapping_stored_form (o : pyobj) (d : doc) :
  obj_items o = Ok d -> stored_form o = Dict d.
Proof. destruct o as [d0 | d0 | v0]; simpl; intros Ho; congruence. Qed.

(** [x or {}] keeps the items of a mapping [x]. *)
Lemma or_empty_items (d : doc) :
  obj_items (if obj_truthy (Dict d) then Dict d else Dict ∅) = Ok d.
Proof.
  simpl. destruct (Nat.eqb (size d) 0) eqn:Hsize; simpl; [ | reflexivity ].
  apply Nat.eqb_eq, map_size_empty_inv in Hsize. now subst d.
Qed.

(** Binding a document that carries no reserved keys succeeds for any
    expected reference and leaves the caller's document as it was. *)
Lemma bind_data_clean (self : NodeData.t) (data : pyobj) (d : doc) (ref : pyval) :
  obj_items data = Ok d ->
  no_reserved_keys d ->
  NodeData.bind_data ref (self, data) =
    (Ok tt,
     (NodeData.set_node_data (Field.wrap (NodeData.field self) data)
        (NodeData.set_ref_version PyNone (NodeData.set_ref ref self)),
      data)).
Proof.
  intros Ho Hclean. rewrite (bind_data_run self data d ref Ho).
  rewrite (without_reserved_id d Hclean), (with_items_same data d Ho).
  destruct Hclean as [Href Hver].
  unfold integrity_violation, stored_ref, stored_ref_version.
  rewrite Href, Hver. simpl default. rewrite py_ne_refl, andb_false_r.
  reflexivity.
Qed.

(** Decoding what [get_prep_value] persisted for a pointer gives a proxy
    with that pointer and no body, without a call to the store. *)
Lemma to_python_pointer (self : Field.t) (id : pyval) (w : World S) :
  codec_reversible ->
  NodeField.to_python self (Val (persisted id)) w = (Ok (pointing self id), w).
Proof.
  intros (Hdecompress & Hnonempty & Hpickle).
  unfold NodeField.to_python, persisted, NodeField.nonempty_string, NodeField.decode.
  specialize (Hnonempty (pickle_dumps (NodeField.pointer_record id))).
  apply String.eqb_neq in Hnonempty. rewrite Hnonempty, Hdecompress, Hpickle.
  unfold bind, ret, lift_result, NodeField.pointer_record. simpl.
  rewrite lookup_singleton_eq. reflexivity.
Qed.

(** Decoding the null sentinel gives a proxy without pointer, bound to the
    (wrapped) empty document. *)
Lemma to_python_null (self : Field.t) (w : World S) :
  NodeField.to_python self None_ w
    = (Ok (NodeData.__init__ self PyNone (Field.wrap self (Dict ∅))), w).
Proof. reflexivity. Qed.

(** The two ways the store write of a save can go, seen from the reader:
    the persisted pointer is true and the store returns the body under it. *)
Lemma write_body_then_get (value : NodeData.t) (w : World S) (data : pyobj) :
  create_then_get -> set_then_get ->
  exists id value2 w2,
    write_body value w data = (Ok (persisted id), (value2, w2))
    /\ py_truthy id = true
    /\ ns_get (store w2) id = data.
Proof.
  intros Hcreate Hset. unfold write_body.
  destruct (py_truthy (NodeData.id value)) eqn:Hid.
  - exists (NodeData.id value). eexists. eexists.
    split; [ reflexivity | split; [ exact Hid | apply Hset ] ].
  - exists (new_pointer w data). eexists. eexists.
    split; [ reflexivity | ]. apply (Hcreate (store w) data).
Qed.

(** The body of a freshly decoded pointer proxy, read in lenient mode. *)
Lemma read_fetched (lax : Settings) (self : Field.t) (id : pyval) (w : World S) (d : doc) :
  DEBUG lax = false ->
  py_truthy id = true ->
  keeps_items self ->
  no_reserved_keys d ->
  obj_items (get_or_empty w id) = Ok d ->
  exists body st,
    NodeData.read_data lax (pointing self id, w) = (Ok (NodeData.Own, body), st)
    /\ obj_items body = Ok d.
Proof.
  intros Hlax Hid Hkeep Hclean Hget.
  unfold NodeData.read_data. unfold bind at 1.
  rewrite (data_lenient lax (pointing self id) w eq_refl Hid Hlax).
  simpl NodeData.id.
  rewrite (bind_data_clean (pointing self id) (get_or_empty w id) d PyNone Hget Hclean).
  simpl fst. simpl snd. unfold bind, NodeData.self_, ret. simpl.
  eexists. eexists. split; [ reflexivity | ].
  now rewrite Hkeep.
Qed.

(** C1.  For a document [D] without reserved keys: binding [D] to a proxy
    succeeds; saving that proxy with [get_prep_value] returns the column
    value; decoding that value with [to_python] returns a proxy; and the
    body of this proxy is [D], as a mapping without key order, both when it
    is materialized by an access in lenient mode and when it is already
    bound or is bound by the explicit bind step to what the store returns
    for its pointer. *)
Theorem codec_roundtrip
    (settings : Settings) (self : Field.t) (value : NodeData.t) (w : World S)
    (D : doc) (ref : pyval) :
  create_then_get -> set_then_get -> codec_reversible -> keeps_items self ->
  NodeData.field value = self ->
  no_reserved_keys D ->
  exists value1 bytes value2 w2 loaded,
    NodeData.bind_data ref (value, Dict D) = (Ok tt, (value1, Dict D))
    /\ NodeField.get_prep_value settings self (value1, w) = (Ok bytes, (value2, w2))
    /\ NodeField.to_python self (Val bytes) w2 = (Ok loaded, w2)
    /\ (forall lax : Settings,
          DEBUG lax = false ->
          exists r body st,
            NodeData.read_data lax (loaded, w2) = (Ok (r, body), st)
            /\ obj_items body = Ok D)
    /\ (obj_items (NodeData._node_data loaded) = Ok D
        \/ (NodeData._node_data loaded = None_
            /\ forall ref' : pyval,
                 exists loaded' rest,
                   NodeData.bind_data ref' (loaded, get_or_empty w2 (NodeData.id loaded))
                     = (Ok tt, (loaded', rest))
                   /\ obj_items (NodeData._node_data loaded') = Ok D)).
Proof.
  intros Hcreate Hset Hcodec Hkeep Hfield Hclean.
  pose proof (bind_data_clean value (Dict D) D ref eq_refl Hclean) as Hbind.
  rewrite Hfield in Hbind.
  set (value1 := NodeData.set_node_data (Field.wrap self (Dict D)) _) in Hbind.
  assert (Hitems1 : obj_items (NodeData._node_data value1) = Ok D)
    by (subst value1; simpl; now rewrite Hkeep).
  pose proof (mapping_is_not_None _ _ Hitems1) as Hb1.
  pose proof (mapping_len _ _ Hitems1) as Hlen1.
  exists value1.
  destruct (Nat.eqb (size D) 0 && Field.null self) eqn:Hnull.
  - (* persisted as null: the document is empty *)
    apply andb_true_iff in Hnull as [Hsize Hn].
    apply Nat.eqb_eq, map_size_empty_inv in Hsize.
    exists PyNone, value1, w.
    exists (NodeData.__init__ self PyNone (Field.wrap self (Dict ∅))).
    assert (Hbody : obj_items (Field.wrap self (Dict ∅)) = Ok D)
      by (rewrite Hkeep; subst D; reflexivity).
    split; [ exact Hbind | split; [ | split; [ apply to_python_null | split ] ] ].
    + rewrite get_prep_value_run, (len_bound settings value1 w Hb1), Hlen1.
      subst D. rewrite map_size_empty, Hn. reflexivity.
    + intros lax _. exists NodeData.Own, (Field.wrap self (Dict ∅)). eexists.
      split; [ | exact Hbody ].
      unfold NodeData.read_data, bind. rewrite data_bound; [ reflexivity | ].
      simpl. exact (mapping_is_not_None _ _ Hbody).
    + left. exact Hbody.
  - (* written to the store and persisted as a pointer *)
    destruct (write_body_then_get value1 w (Dict D) Hcreate Hset)
      as (id & value2 & w2 & Hwrite & Hid & Hget).
    assert (Hgot : obj_items (get_or_empty w2 id) = Ok D)
      by (unfold get_or_empty; rewrite Hget; apply or_empty_items).
    exists (persisted id), value2, w2, (pointing self id).
    split; [ exact Hbind | split; [ | split; [ now apply to_python_pointer | split ] ] ].
    + rewrite (save_bound settings self value1 w (size D) Hb1 Hlen1 Hnull).
      rewrite (mapping_stored_form _ _ Hitems1). exact Hwrite.
    + intros lax Hlax.
      destruct (read_fetched lax self id w2 D Hlax Hid Hkeep Hclean Hgot)
        as (body & st & Hread & Hbody).
      exists NodeData.Own, body, st. split; assumption.
    + right. split; [ reflexivity | ]. intros ref'. simpl NodeData.id.
      rewrite (bind_data_clean (pointing self id) _ D ref' Hgot Hclean).
      eexists. eexists. split; [ reflexivity | ]. simpl. now rewrite Hkeep.
Qed.
End RoundTrip.

(** ** The reference instances meet the assumptions *)

Lemma mem_store_create_then_get : @create_then_get MemStore mem_store.
Proof.
  intros s data. split; [ reflexivity | ].
  simpl. now rewrite Pos.eqb_refl.
Qed.

Lemma mem_store_set_then_get : @set_then_get MemStore mem_store.
Proof. intros s id data. simpl. now rewrite py_eq_refl. Qed.

Lemma tally_length (n : nat) : String.length (tally n) = n.
Proof. induction n as [ | n IH]; simpl; [ reflexivity | now rewrite IH ]. Qed.

Lemma dec_enc_val (v : pyval) : dec_val (enc_val v) = Some v.
Proof.
  destruct v as [ | [ | ] | [ | p | p] | s]; simpl; try reflexivity;
    now rewrite tally_length, Pos2Nat.id.
Qed.

Lemma tag_codec_reversible : @codec_reversible tag_codec.
Proof.
  split; [ reflexivity | split; [ discriminate | ] ].
  intros id. unfold NodeField.pointer_record. simpl.
  rewrite lookup_singleton_eq. simpl. now rewrite dec_enc_val.
Qed.

Lemma no_wrapper_keeps_items (f : Field.t) :
  Field.wrapper f = None -> keeps_items f.
Proof. intros Hw o. unfold Field.wrap. now rewrite Hw. Qed.

Lemma canonical_wrapper_keeps_items : keeps_items wrapping.
Proof. intros [d | d | v]; reflexivity. Qed.

Lemma codec_roundtrip_witness :
  exists value1 bytes value2 w2 loaded,
    NodeData.bind_data (PyInt 7) (fresh wrapping, Dict hello) = (Ok tt, (value1, Dict hello))
    /\ @NodeField.get_prep_value MemStore mem_store tag_codec strict wrapping
         (value1, new_world empty_store) = (Ok bytes, (value2, w2))
    /\ @NodeField.to_python MemStore tag_codec wrapping (Val bytes) w2 = (Ok loaded, w2)
    /\ (forall lax : Settings,
          DEBUG lax = false ->
          exists r body st,
            @NodeData.read_data MemStore mem_store lax (loaded, w2) = (Ok (r, body), st)
            /\ obj_items body = Ok hello)
    /\ (obj_items (NodeData._node_data loaded) = Ok hello
        \/ (NodeData._node_data loaded = None_
            /\ forall ref' : pyval,
                 exists loaded' rest,
                   NodeData.bind_data ref'
                     (loaded, @get_or_empty MemStore mem_store w2 (NodeData.id loaded))
                     = (Ok tt, (loaded', rest))
                   /\ obj_items (NodeData._node_data loaded') = Ok hello)).
Proof.
  apply (@codec_roundtrip MemStore mem_store tag_codec strict wrapping (fresh wrapping)
           (new_world empty_store) hello (PyInt 7)
           mem_store_create_then_get mem_store_set_then_get tag_codec_reversible
           canonical_wrapper_keeps_items eq_refl).
  split; reflexivity.
Defined.

(** ** The model on concrete inputs *)

(** Bind, save, decode and read, on the in-memory store. *)
Example roundtrip_hello :
  let bound := fst (snd (NodeData.bind_data (PyInt 7) (fresh wrapping, Dict hello))) in
  let saved :=
    @NodeField.get_prep_value MemStore mem_store tag_codec lenient wrapping
      (bound, new_world empty_store) in
  let loaded :=
    @NodeField.to_python MemStore tag_codec wrapping (Val (PyStr "zP+|"))
      (snd (snd saved)) in
  NodeData._node_data bound = CanonicalKeyDict hello
  /\ fst saved = Ok (PyStr "zP+|")
  /\ calls (snd (snd saved)) = [CallCreate (Dict hello)]
  /\ fst loaded = Ok (pointing wrapping (PyInt 1))
  /\ fst (@NodeData.__getitem__ MemStore mem_store lenient "message"
            (pointing wrapping (PyInt 1), snd loaded)) = Ok (PyStr "hello").
Proof. repeat split. Qed.

(** A write to a proxy that has a pointer is kept, unlike the write to a
    proxy that has none. *)
Example write_after_fetch_is_kept :
  (@NodeData.__setitem__ MemStore mem_store lenient "level" (PyInt 3);;
   @NodeData.__getitem__ MemStore mem_store lenient "level")
    (pointing epoch1 (PyInt 1), new_world store_ref1)
  = (Ok (PyInt 3),
     (NodeData.mk epoch1 (PyInt 1) (PyInt 1) (PyInt 1)
        (Dict (<["level" := PyInt 3]> hello)),
      fetched_world (new_world store_ref1) (PyInt 1))).
Proof. reflexivity. Qed.

(** In strict mode the first access to a proxy that has a pointer and no
    body raises, and nothing is fetched. *)
Example strict_access_raises :
  @NodeData.__getitem__ MemStore mem_store strict "message"
    (pointing epoch1 (PyInt 1), new_world store_ref1)
  = (Raise NodeUnpopulated, (pointing epoch1 (PyInt 1), new_world store_ref1)).
Proof. reflexivity. Qed.

(** A proxy that never had a body and is saved twice in strict mode: the
    first save creates the empty document and leaves the body absent, so the
    second save stops at the truth test. *)
Example resave_never_bound_strict :
  let first :=
    @NodeField.get_prep_value MemStore mem_store tag_codec strict not_null
      (fresh not_null, new_world empty_store) in
  let second :=
    @NodeField.get_prep_value MemStore mem_store tag_codec strict not_null (snd first) in
  fst first = Ok (PyStr "zP+|")
  /\ calls (snd (snd first)) = [CallCreate (Dict ∅)]
  /\ NodeData._node_data (fst (snd first)) = None_
  /\ fst second = Raise NodeUnpopulated
  /\ calls (snd (snd second)) = [CallCreate (Dict ∅)].
Proof. repeat split. Qed.

(** A legacy pickle with the [data] duplicate and without the flag. *)
Example setstate_legacy :
  NodeData.__setstate__
    (NodeData.mk_state epoch1 (PyInt 1) PyNone PyNone (Dict hello) None (Some (Dict hello)))
  = Ok (NodeData.mk epoch1 (PyInt 1) PyNone PyNone (Dict hello)).
Proof. reflexivity. Qed.

(** * Further properties of the module *)

(** ** The mapping interface of a bound proxy *)
Section BoundMapping.
Context {S : Type} `{NodeStore S} (settings : Settings).

Lemma read_bound (self : NodeData.t) (w : World S) :
  is_not_None (NodeData._node_data self) = true ->
  NodeData.read_data settings (self, w)
    = (Ok (NodeData.Own, NodeData._node_data self), (self, w)).
Proof.
  intros Hb. unfold NodeData.read_data, bind.
  now rewrite (data_bound settings self w Hb).
Qed.

Lemma getitem_bound (self : NodeData.t) (w : World S) (d : doc) (key : string) :
  obj_items (NodeData._node_data self) = Ok d ->
  NodeData.__getitem__ settings key (self, w)
    = (match d !! key with Some v => Ok v | None => Raise KeyError end, (self, w)).
Proof.
  intros Hd. unfold NodeData.__getitem__, bind.
  rewrite (read_bound self w (mapping_is_not_None _ _ Hd)).
  unfold lift_result.
  destruct (NodeData._node_data self) as [d0 | d0 | v0]; simpl in *;
    try discriminate Hd; injection Hd as ->; reflexivity.
Qed.

Lemma setitem_bound (self : NodeData.t) (w : World S) (d : doc)
    (key : string) (value : pyval) :
  obj_items (NodeData._node_data self) = Ok d ->
  NodeData.__setitem__ settings key value (self, w)
    = (Ok tt,
       (NodeData.set_node_data
          (with_items (NodeData._node_data self) (<[key := value]> d)) self, w)).
Proof.
  intros Hd. unfold NodeData.__setitem__, bind.
  rewrite (read_bound self w (mapping_is_not_None _ _ Hd)).
  unfold lift_result, NodeData.assign, NodeData.update, modify.
  destruct (NodeData._node_data self) as [d0 | d0 | v0]; simpl in *;
    try discriminate Hd; injection Hd as ->; reflexivity.
Qed.

(** A write to a proxy whose body is materialized is read back, leaves the
    other keys, the kind of the body and the rest of the proxy as they were,
    and reaches neither the store nor the warnings, in either mode and with
    or without a pointer. *)
Theorem setitem_then_getitem
    (self : NodeData.t) (w : World S) (d : doc) (key : string) (value : pyval) :
  obj_items (NodeData._node_data self) = Ok d ->
  exists self1,
    NodeData.__setitem__ settings key value (self, w) = (Ok tt, (self1, w))
    /\ obj_items (NodeData._node_data self1) = Ok (<[key := value]> d)
    /\ is_canonical (NodeData._node_data self1) = is_canonical (NodeData._node_data self)
    /\ NodeData.set_node_data (NodeData._node_data self) self1 = self
    /\ NodeData.__getitem__ settings key (self1, w) = (Ok value, (self1, w))
    /\ forall other : string,
         other <> key ->
         fst (NodeData.__getitem__ settings other (self1, w))
         = fst (NodeData.__getitem__ settings other (self, w)).
Proof.
  intros Hd. eexists. split; [ exact (setitem_bound self w d key value Hd) | ].
  set (self1 := NodeData.set_node_data _ self).
  assert (Hd1 : obj_items (NodeData._node_data self1) = Ok (<[key := value]> d))
    by (subst self1; simpl; now apply obj_items_with_items with d).
  split; [ exact Hd1 | split; [ | split; [ | split ] ] ].
  - subst self1. simpl. now destruct (NodeData._node_data self).
  - subst self1. now destruct self.
  - rewrite (getitem_bound self1 w _ key Hd1). now rewrite lookup_insert_eq.
  - intros other Hother.
    rewrite (getitem_bound self1 w _ other Hd1), (getitem_bound self w d other Hd).
    simpl. now rewrite lookup_insert_ne by congruence.
Qed.

(** Deleting a key that the body does not have raises [KeyError] and
    changes nothing; deleting a key it has removes that key alone: the read
    of it then raises [KeyError], the length drops by one, the other keys
    read as before, and the store is not called. *)
Theorem delitem_behaviour (self : NodeData.t) (w : World S) (d : doc) (key : string) :
  obj_items (NodeData._node_data self) = Ok d ->
  (d !! key = None ->
     NodeData.__delitem__ settings key (self, w) = (Raise KeyError, (self, w)))
  /\ (forall v : pyval,
        d !! key = Some v ->
        exists self1,
          NodeData.__delitem__ settings key (self, w) = (Ok tt, (self1, w))
          /\ NodeData.__getitem__ settings key (self1, w) = (Raise KeyError, (self1, w))
          /\ NodeData.__len__ settings (self1, w) = (Ok (size d - 1), (self1, w))
          /\ NodeData.__len__ settings (self, w) = (Ok (size d), (self, w))
          /\ forall other : string,
               other <> key ->
               fst (NodeData.__getitem__ settings other (self1, w))
               = fst (NodeData.__getitem__ settings other (self, w))).
Proof.
  intros Hd.
  pose proof (mapping_is_not_None _ _ Hd) as Hb.
  assert (Hrun : NodeData.__delitem__ settings key (self, w) =
            match d !! key with
            | Some _ =>
                (Ok tt,
                 (NodeData.set_node_data
                    (with_items (NodeData._node_data self) (delete key d)) self, w))
            | None => (Raise KeyError, (self, w))
            end).
  { unfold NodeData.__delitem__, bind. rewrite (read_bound self w Hb).
    unfold lift_result, NodeData.assign, NodeData.update, modify.
    destruct (NodeData._node_data self) as [d0 | d0 | v0]; simpl in *;
      try discriminate Hd; injection Hd as ->; destruct (d !! key); reflexivity. }
  split.
  - intros Hkey. now rewrite Hrun, Hkey.
  - intros v Hkey. rewrite Hrun, Hkey. eexists. split; [ reflexivity | ].
    set (self1 := NodeData.set_node_data _ self).
    assert (Hd1 : obj_items (NodeData._node_data self1) = Ok (delete key d))
      by (subst self1; simpl; now apply obj_items_with_items with d).
    split; [ | split; [ | split ] ].
    + rewrite (getitem_bound self1 w _ key Hd1). now rewrite lookup_delete_eq.
    + rewrite (len_bound settings self1 w (mapping_is_not_None _ _ Hd1)).
      rewrite (mapping_len _ _ Hd1), (map_size_delete_Some key d) by eauto.
      now rewrite Nat.sub_1_r.
    + rewrite (len_bound settings self w Hb). now rewrite (mapping_len _ _ Hd).
    + intros other Hother.
      rewrite (getitem_bound self1 w _ other Hd1), (getitem_bound self w d other Hd).
      simpl. now rewrite lookup_delete_ne by congruence.
Qed.
End BoundMapping.

Lemma setitem_then_getitem_witness :
  exists self1,
    @NodeData.__setitem__ MemStore mem_store strict "level" (PyInt 3)
      (loaded_event, new_world store_ref1) = (Ok tt, (self1, new_world store_ref1))
    /\ obj_items (NodeData._node_data self1) = Ok (<["level" := PyInt 3]> hello)
    /\ is_canonical (NodeData._node_data self1)
       = is_canonical (NodeData._node_data loaded_event)
    /\ NodeData.set_node_data (NodeData._node_data loaded_event) self1 = loaded_event
    /\ @NodeData.__getitem__ MemStore mem_store strict "level"
         (self1, new_world store_ref1) = (Ok (PyInt 3), (self1, new_world store_ref1))
    /\ forall other : string,
         other <> "level" ->
         fst (@NodeData.__getitem__ MemStore mem_store strict other
                (self1, new_world store_ref1))
         = fst (@NodeData.__getitem__ MemStore mem_store strict other
                  (loaded_event, new_world store_ref1)).
Proof.
  exact (@setitem_then_getitem MemStore mem_store strict loaded_event
           (new_world store_ref1) hello "level" (PyInt 3) eq_refl).
Defined.

Lemma delitem_behaviour_witness :
  let w := new_world store_ref1 in
  @NodeData.__delitem__ MemStore mem_store strict "level" (loaded_event, w)
    = (Raise KeyError, (loaded_event, w))
  /\ exists self1,
       @NodeData.__delitem__ MemStore mem_store strict "message" (loaded_event, w)
         = (Ok tt, (self1, w))
       /\ @NodeData.__getitem__ MemStore mem_store strict "message" (self1, w)
          = (Raise KeyError, (self1, w))
       /\ @NodeData.__len__ MemStore mem_store strict (self1, w)
          = (Ok (size hello - 1), (self1, w))
       /\ @NodeData.__len__ MemStore mem_store strict (loaded_event, w)
          = (Ok (size hello), (loaded_event, w))
       /\ forall other : string,
            other <> "message" ->
            fst (@NodeData.__getitem__ MemStore mem_store strict other (self1, w))
            = fst (@NodeData.__getitem__ MemStore mem_store strict other (loaded_event, w)).
Proof.
  split.
  - apply (proj1 (@delitem_behaviour MemStore mem_store strict loaded_event
                    (new_world store_ref1) hello "level" eq_refl)).
    reflexivity.
  - apply (proj2 (@delitem_behaviour MemStore mem_store strict loaded_event
                    (new_world store_ref1) hello "message" eq_refl) (PyStr "hello")).
    reflexivity.
Defined.

(** ** Iteration *)

(** Iterating over a proxy whose body is materialized yields each key of
    the body once: as many keys as [len] counts, and exactly those that
    [__getitem__] finds; the store is not called. *)
Theorem iter_yields_the_keys
    {S : Type} `{NodeStore S} (settings : Settings)
    (self : NodeData.t) (w : World S) (d : doc) :
  obj_items (NodeData._node_data self) = Ok d ->
  exists keys : list string,
    NodeDataRef.__iter__ settings (self, w) = (Ok keys, (self, w))
    /\ NoDup keys
    /\ NodeData.__len__ settings (self, w) = (Ok (length keys), (self, w))
    /\ forall key : string,
         key ∈ keys <->
         exists v, NodeData.__getitem__ settings key (self, w) = (Ok v, (self, w)).
Proof.
  intros Hd. pose proof (mapping_is_not_None _ _ Hd) as Hb.
  exists ((map_to_list d).*1). split; [ | split; [ | split ] ].
  - unfold NodeDataRef.__iter__, bind. rewrite (read_bound settings self w Hb).
    unfold lift_result.
    destruct (NodeData._node_data self) as [d0 | d0 | v0]; simpl in *;
      try discriminate Hd; injection Hd as ->; reflexivity.
  - apply NoDup_fst_map_to_list.
  - rewrite (len_bound settings self w Hb), (mapping_len _ _ Hd).
    now rewrite length_fmap, length_map_to_list.
  - intros key. rewrite (getitem_bound settings self w d key Hd).
    rewrite list_elem_of_fmap. split.
    + intros ([k v] & -> & Hin). apply elem_of_map_to_list in Hin.
      exists v. simpl. now rewrite Hin.
    + intros (v & Hget). destruct (d !! key) as [v' | ] eqn:Hkey; [ | discriminate Hget ].
      exists (key, v'). split; [ reflexivity | now apply elem_of_map_to_list ].
Qed.

Lemma iter_yields_the_keys_witness :
  exists keys : list string,
    @NodeDataRef.__iter__ MemStore mem_store strict
      (loaded_event, new_world store_ref1) = (Ok keys, (loaded_event, new_world store_ref1))
    /\ NoDup keys
    /\ @NodeData.__len__ MemStore mem_store strict (loaded_event, new_world store_ref1)
       = (Ok (length keys), (loaded_event, new_world store_ref1))
    /\ forall key : string,
         key ∈ keys <->
         exists v,
           @NodeData.__getitem__ MemStore mem_store strict key
             (loaded_event, new_world store_ref1)
           = (Ok v, (loaded_event, new_world store_ref1)).
Proof.
  exact (@iter_yields_the_keys MemStore mem_store strict loaded_event
           (new_world store_ref1) hello eq_refl).
Defined.

(** ** A pointer under which the store has nothing *)
Section Missing.
Context {S : Type} `{NodeStore S} (settings : Settings).

Lemma no_reserved_keys_empty : no_reserved_keys ∅.
Proof. split; apply lookup_empty. Qed.

(** The lazy fetch when [get] answers a false value. *)
Lemma fetch_nothing (self : NodeData.t) (w : World S) :
  is_not_None (NodeData._node_data self) = false ->
  py_truthy (NodeData.id self) = true ->
  DEBUG settings = false ->
  obj_truthy (ns_get (store w) (NodeData.id self)) = false ->
  NodeData.data settings (self, w) =
    (Ok NodeData.Own,
     (NodeData.set_node_data (Field.wrap (NodeData.field self) (Dict ∅))
        (NodeData.set_ref_version PyNone (NodeData.set_ref PyNone self)),
      fetched_world w (NodeData.id self))).
Proof.
  intros Hb Hid Hdebug Hmiss.
  rewrite (data_lenient settings self w Hb Hid Hdebug).
  unfold get_or_empty. rewrite Hmiss.
  now rewrite (bind_data_clean self (Dict ∅) ∅ PyNone eq_refl no_reserved_keys_empty).
Qed.

Lemma read_nothing (self : NodeData.t) (w : World S) :
  is_not_None (NodeData._node_data self) = false ->
  py_truthy (NodeData.id self) = true ->
  DEBUG settings = false ->
  obj_truthy (ns_get (store w) (NodeData.id self)) = false ->
  NodeData.read_data settings (self, w) =
    (Ok (NodeData.Own, Field.wrap (NodeData.field self) (Dict ∅)),
     (NodeData.set_node_data (Field.wrap (NodeData.field self) (Dict ∅))
        (NodeData.set_ref_version PyNone (NodeData.set_ref PyNone self)),
      fetched_world w (NodeData.id self))).
Proof.
  intros Hb Hid Hdebug Hmiss. unfold NodeData.read_data, bind.
  now rewrite (fetch_nothing self w Hb Hid Hdebug Hmiss).
Qed.

(** In lenient mode, when the store answers [None] (or an empty document)
    for the pointer of a proxy without body, the first access is not an
    error: after one [get] the proxy is bound to the empty document, with
    [ref] and [ref_version] at [None]; its length is [0] and every read
    raises [KeyError]. *)
Theorem missing_node_reads_empty (self : NodeData.t) (w : World S) :
  is_not_None (NodeData._node_data self) = false ->
  py_truthy (NodeData.id self) = true ->
  DEBUG settings = false ->
  obj_truthy (ns_get (store w) (NodeData.id self)) = false ->
  obj_items (Field.wrap (NodeData.field self) (Dict ∅)) = Ok ∅ ->
  exists self1,
    let st1 := (self1, fetched_world w (NodeData.id self)) in
    NodeData.__len__ settings (self, w) = (Ok 0, st1)
    /\ (forall key : string,
          NodeData.__getitem__ settings key (self, w) = (Raise KeyError, st1))
    /\ obj_items (NodeData._node_data self1) = Ok ∅
    /\ NodeData.ref self1 = PyNone
    /\ NodeData.ref_version self1 = PyNone
    /\ NodeData.id self1 = NodeData.id self
    /\ calls (fetched_world w (NodeData.id self))
       = (calls w ++ [CallGet (NodeData.id self)])%list.
Proof.
  intros Hb Hid Hdebug Hmiss Hwrap.
  exists (NodeData.set_node_data (Field.wrap (NodeData.field self) (Dict ∅))
            (NodeData.set_ref_version PyNone (NodeData.set_ref PyNone self))).
  cbv zeta. split; [ | split; [ | split; [ | repeat split ] ] ].
  - unfold NodeData.__len__, bind.
    rewrite (read_nothing self w Hb Hid Hdebug Hmiss).
    unfold lift_result. now rewrite (mapping_len _ _ Hwrap), map_size_empty.
  - intros key. unfold NodeData.__getitem__, bind.
    rewrite (read_nothing self w Hb Hid Hdebug Hmiss). unfold lift_result.
    destruct (Field.wrap _ _) as [d0 | d0 | v0]; simpl in Hwrap; try discriminate Hwrap;
      injection Hwrap as ->; reflexivity.
  - exact Hwrap.
Qed.
End Missing.

Lemma missing_node_reads_empty_witness :
  exists self1,
    let st1 := (self1, fetched_world (new_world store_missing) (PyInt 1)) in
    @NodeData.__len__ MemStore mem_store lenient
      (pointing wrapping (PyInt 1), new_world store_missing) = (Ok 0, st1)
    /\ (forall key : string,
          @NodeData.__getitem__ MemStore mem_store lenient key
            (pointing wrapping (PyInt 1), new_world store_missing)
          = (Raise KeyError, st1))
    /\ obj_items (NodeData._node_data self1) = Ok ∅
    /\ NodeData.ref self1 = PyNone
    /\ NodeData.ref_version self1 = PyNone
    /\ NodeData.id self1 = PyInt 1
    /\ calls (fetched_world (new_world store_missing) (PyInt 1)) = [CallGet (PyInt 1)].
Proof.
  exact (@missing_node_reads_empty MemStore mem_store lenient
           (pointing wrapping (PyInt 1)) (new_world store_missing)
           eq_refl eq_refl eq_refl eq_refl eq_refl).
Defined.

(** After the delete hook has run for a proxy with a pointer, on a store
    whose [get] finds nothing under a deleted pointer, a proxy decoded from
    the old pointer still reads, in lenient mode, as the empty document: the
    hook's [delete] and the reader's [get] are the only calls. *)
Theorem deleted_node_reads_empty
    {S : Type} `{NodeStore S} (settings : Settings)
    (self : Field.t) (inst : NodeField.instance) (value : NodeData.t) (w : World S) :
  delete_then_get ->
  inst !! Field.name self = Some value ->
  py_truthy (NodeData.id value) = true ->
  DEBUG settings = false ->
  obj_items (Field.wrap self (Dict ∅)) = Ok ∅ ->
  exists w1 reader1 w2,
    NodeField.on_delete self inst w = (Ok tt, w1)
    /\ NodeData.__len__ settings (pointing self (NodeData.id value), w1)
       = (Ok 0, (reader1, w2))
    /\ obj_items (NodeData._node_data reader1) = Ok ∅
    /\ calls w2
       = (calls w ++ [CallDelete (NodeData.id value); CallGet (NodeData.id value)])%list.
Proof.
  intros Hlaw Hattr Hid Hdebug Hwrap.
  exists (after_delete w (NodeData.id value)).
  assert (Hrun : NodeField.on_delete self inst w
                 = (Ok tt, after_delete w (NodeData.id value))).
  { unfold NodeField.on_delete, NodeField.getattr, bind, lift_result.
    rewrite Hattr, Hid. reflexivity. }
  assert (Hmiss : obj_truthy (ns_get (store (after_delete w (NodeData.id value)))
                                (NodeData.id (pointing self (NodeData.id value)))) = false)
    by apply Hlaw.
  exists (NodeData.set_node_data (Field.wrap self (Dict ∅))
            (NodeData.set_ref_version PyNone
               (NodeData.set_ref PyNone (pointing self (NodeData.id value))))).
  exists (fetched_world (after_delete w (NodeData.id value)) (NodeData.id value)).
  split; [ exact Hrun | split; [ | split ] ].
  - unfold NodeData.__len__, bind.
    rewrite (read_nothing settings (pointing self (NodeData.id value)) _
               eq_refl Hid Hdebug Hmiss).
    unfold lift_result. simpl NodeData.field.
    rewrite (mapping_len _ _ Hwrap), map_size_empty. reflexivity.
  - exact Hwrap.
  - simpl. now rewrite <- app_assoc.
Qed.

Lemma mem_find_removed (id : pyval) (l : list (pyval * pyobj)) :
  mem_find id (mem_remove id l) = None_.
Proof.
  induction l as [ | [k o] l IH]; [ reflexivity | ].
  unfold mem_remove in *. simpl.
  destruct (py_eq k id) eqn:Hk; simpl; [ exact IH | ].
  now rewrite Hk.
Qed.

Lemma mem_store_delete_then_get : @delete_then_get MemStore mem_store.
Proof. intros s id. simpl. now rewrite mem_find_removed. Qed.

Lemma deleted_node_reads_empty_witness :
  exists w1 reader1 w2,
    @NodeField.on_delete MemStore mem_store epoch1
      (record_with (pointing epoch1 (PyInt 1))) (new_world store_ref1) = (Ok tt, w1)
    /\ @NodeData.__len__ MemStore mem_store lenient (pointing epoch1 (PyInt 1), w1)
       = (Ok 0, (reader1, w2))
    /\ obj_items (NodeData._node_data reader1) = Ok ∅
    /\ calls w2 = [CallDelete (PyInt 1); CallGet (PyInt 1)].
Proof.
  exact (@deleted_node_reads_empty MemStore mem_store lenient epoch1
           (record_with (pointing epoch1 (PyInt 1))) (pointing epoch1 (PyInt 1))
           (new_world store_ref1) mem_store_delete_then_get
           eq_refl eq_refl eq_refl eq_refl).
Defined.

(** ** What a successful bind leaves on the proxy *)

(** When [bind_data] succeeds on a mapping, for a wrapper that keeps
    items, the proxy's new body (whatever was bound before) and the caller's
    mapping both hold the items of the mapping without [_ref] and
    [_ref_version]; every other key is kept with its value; [ref] and
    [ref_version] hold the two values taken out, by default the expected
    reference and [None]; the pointer is not touched. *)
Theorem bind_data_strips_reserved
    (self : NodeData.t) (data : pyobj) (d : doc) (ref : pyval) :
  obj_items data = Ok d ->
  keeps_items (NodeData.field self) ->
  fst (NodeData.bind_data ref (self, data)) = Ok tt ->
  let self1 := fst (snd (NodeData.bind_data ref (self, data))) in
  let rest := snd (snd (NodeData.bind_data ref (self, data))) in
  exists body : doc,
    obj_items (NodeData._node_data self1) = Ok body
    /\ obj_items rest = Ok body
    /\ body !! "_ref" = None
    /\ body !! "_ref_version" = None
    /\ (forall key : string,
          key <> "_ref" -> key <> "_ref_version" -> body !! key = d !! key)
    /\ NodeData.ref self1 = default ref (d !! "_ref")
    /\ NodeData.ref_version self1 = default PyNone (d !! "_ref_version")
    /\ NodeData.id self1 = NodeData.id self.
Proof.
  intros Hd Hkeep. rewrite (bind_data_run self data d ref Hd).
  destruct (integrity_violation (NodeData.field self) d ref); [ discriminate | ].
  intros _. simpl. exists (without_reserved d).
  assert (Hrest : obj_items (with_items data (without_reserved d)) = Ok (without_reserved d))
    by now apply obj_items_with_items with d.
  split; [ now rewrite Hkeep | split; [ exact Hrest | ] ].
  unfold without_reserved.
  split; [ | split; [ apply lookup_delete_eq | split; [ | repeat split ] ] ].
  - rewrite lookup_delete_ne by discriminate. apply lookup_delete_eq.
  - intros key Href Hver. now rewrite !lookup_delete_ne by congruence.
Qed.

Lemma bind_data_strips_reserved_witness :
  let out := NodeData.bind_data (PyInt 1) (loaded_event, Dict doc_ref1) in
  exists body : doc,
    obj_items (NodeData._node_data (fst (snd out))) = Ok body
    /\ obj_items (snd (snd out)) = Ok body
    /\ body !! "_ref" = None
    /\ body !! "_ref_version" = None
    /\ (forall key : string,
          key <> "_ref" -> key <> "_ref_version" -> body !! key = doc_ref1 !! key)
    /\ NodeData.ref (fst (snd out)) = default (PyInt 1) (doc_ref1 !! "_ref")
    /\ NodeData.ref_version (fst (snd out)) = default PyNone (doc_ref1 !! "_ref_version")
    /\ NodeData.id (fst (snd out)) = NodeData.id loaded_event.
Proof.
  exact (bind_data_strips_reserved loaded_event (Dict doc_ref1) doc_ref1 (PyInt 1)
           eq_refl canonical_wrapper_keeps_items eq_refl).
Defined.

(** ** The calls a save makes on the store *)
Section SaveCalls.
Context {S : Type} `{NodeStore S} `{Codec} (settings : Settings).

Lemma bind_data_keeps_id (self : NodeData.t) (data : pyobj) (ref : pyval) :
  NodeData.id (fst (snd (NodeData.bind_data ref (self, data)))) = NodeData.id self.
Proof.
  destruct (obj_items data) as [d | e] eqn:Hd.
  - rewrite (bind_data_run self data d ref Hd).
    destruct (integrity_violation _ d ref); reflexivity.
  - destruct data as [d | d | v]; try discriminate Hd. reflexivity.
Qed.

(** An access keeps the pointer and makes at most one call, a [get] under
    that pointer. *)
Lemma data_effect (self : NodeData.t) (w : World S) :
  let out := NodeData.data settings (self, w) in
  NodeData.id (fst (snd out)) = NodeData.id self
  /\ (calls (snd (snd out)) = calls w
      \/ calls (snd (snd out)) = (calls w ++ [CallGet (NodeData.id self)])%list).
Proof.
  cbv zeta. destruct (is_not_None (NodeData._node_data self)) eqn:Hb.
  - rewrite data_bound by exact Hb. split; [ reflexivity | now left ].
  - destruct (py_truthy (NodeData.id self)) eqn:Hid.
    + destruct (DEBUG settings) eqn:Hdebug.
      * rewrite data_strict by assumption. split; [ reflexivity | now left ].
      * rewrite data_lenient by assumption. simpl.
        split; [ apply bind_data_keeps_id | now right ].
    + rewrite data_unbound_empty by assumption. split; [ reflexivity | now left ].
Qed.

Lemma len_effect (self : NodeData.t) (w : World S) :
  let out := NodeData.__len__ settings (self, w) in
  NodeData.id (fst (snd out)) = NodeData.id self
  /\ (calls (snd (snd out)) = calls w
      \/ calls (snd (snd out)) = (calls w ++ [CallGet (NodeData.id self)])%list).
Proof.
  cbv zeta. pose proof (data_effect self w) as Hdata. cbv zeta in Hdata.
  unfold NodeData.__len__, NodeData.read_data, bind.
  destruct (NodeData.data settings (self, w)) as [[r | e] [self1 w1]]; simpl in *;
    [ | exact Hdata ].
  unfold lift_result. exact Hdata.
Qed.

Lemma stored_form_plain (o : pyobj) : is_canonical (stored_form o) = false.
Proof. destruct o; reflexivity. Qed.

(** Whatever the proxy and the mode, a save reads the store at most once,
    with [get] under the proxy's pointer, and then writes at most once.  It
    writes exactly when it returns a string to persist, and what it writes
    with [create] or [set] is never a canonical dict; when it returns [None]
    or raises it has written nothing.  It never calls [delete]. *)
Theorem save_store_calls (self : Field.t) (value : NodeData.t) (w : World S) :
  let out := NodeField.get_prep_value settings self (value, w) in
  exists gets writes : list store_call,
    calls (snd (snd out)) = (calls w ++ gets ++ writes)%list
    /\ (gets = [] \/ gets = [CallGet (NodeData.id value)])
    /\ match fst out with
       | Ok (PyStr _) => exists c, writes = [c] /\ plain_write c = true
       | _ => writes = []
       end.
Proof.
  cbv zeta. rewrite get_prep_value_run.
  pose proof (len_effect value w) as Hlen. cbv zeta in Hlen.
  destruct (NodeData.__len__ settings (value, w)) as [[n | e] [value1 w1]];
    simpl in Hlen; destruct Hlen as [Hid Hcalls].
  - destruct (Nat.eqb n 0 && Field.null self).
    + destruct Hcalls as [Hc | Hc]; simpl; rewrite Hc.
      * exists [], []. rewrite app_nil_r. auto.
      * exists [CallGet (NodeData.id value)], []. rewrite app_nil_r. auto.
    + unfold write_body, persisted, after_set, after_create.
      destruct (py_truthy (NodeData.id value1)); simpl;
        destruct Hcalls as [Hc | Hc]; rewrite Hc.
      * exists [], [CallSet (NodeData.id value1) (stored_form (body_of value1))].
        split; [ reflexivity | split; [ now left | ] ].
        eexists. split; [ reflexivity | ]. simpl. now rewrite stored_form_plain.
      * exists [CallGet (NodeData.id value)],
          [CallSet (NodeData.id value1) (stored_form (body_of value1))].
        split; [ now rewrite <- app_assoc | split; [ now right | ] ].
        eexists. split; [ reflexivity | ]. simpl. now rewrite stored_form_plain.
      * exists [], [CallCreate (stored_form (body_of value1))].
        split; [ reflexivity | split; [ now left | ] ].
        eexists. split; [ reflexivity | ]. simpl. now rewrite stored_form_plain.
      * exists [CallGet (NodeData.id value)], [CallCreate (stored_form (body_of value1))].
        split; [ now rewrite <- app_assoc | split; [ now right | ] ].
        eexists. split; [ reflexivity | ]. simpl. now rewrite stored_form_plain.
  - destruct Hcalls as [Hc | Hc]; simpl; rewrite Hc.
    + exists [], []. rewrite app_nil_r. auto.
    + exists [CallGet (NodeData.id value)], []. rewrite app_nil_r. auto.
Qed.
End SaveCalls.

(** ** [NodeData.bind_ref] *)
Section BindRef.
Context {S : Type} `{NodeStore S} `{Codec} (settings : Settings).
Context {Model : Type} (ref_func : option (Model -> pyval)).

Lemma with_items_twice (o : pyobj) (d1 d2 : doc) :
  with_items (with_items o d1) d2 = with_items o d2.
Proof. now destruct o. Qed.

Lemma with_reference_lookup (d : doc) (r v : pyval) :
  with_reference d r v !! "_ref" = Some r
  /\ with_reference d r v !! "_ref_version" = Some v
  /\ forall key : string,
       key <> "_ref" -> key <> "_ref_version" -> with_reference d r v !! key = d !! key.
Proof.
  unfold with_reference. split; [ | split ].
  - rewrite lookup_insert_ne by discriminate. apply lookup_insert_eq.
  - apply lookup_insert_eq.
  - intros key Href Hver. now rewrite !lookup_insert_ne by congruence.
Qed.

Lemma without_reserved_with_reference (d : doc) (r v : pyval) :
  without_reserved (with_reference d r v) = without_reserved d.
Proof.
  apply map_eq. intros key. unfold without_reserved, with_reference.
  destruct (decide (key = "_ref_version")) as [-> | Hver].
  - now rewrite !lookup_delete_eq.
  - rewrite !(lookup_delete_ne _ "_ref_version") by congruence.
    destruct (decide (key = "_ref")) as [-> | Href].
    + now rewrite !lookup_delete_eq.
    + rewrite !(lookup_delete_ne _ "_ref") by congruence.
      now rewrite !lookup_insert_ne by congruence.
Qed.

Lemma with_reference_size (d : doc) (r v : pyval) :
  Nat.eqb (size (with_reference d r v)) 0 = false.
Proof.
  apply Nat.eqb_neq. intros Hsize. apply map_size_empty_inv in Hsize.
  pose proof (proj1 (with_reference_lookup d r v)) as Href.
  rewrite Hsize, lookup_empty in Href. discriminate Href.
Qed.

(** [bind_ref] on a bound proxy, for a reference that is true. *)
Lemma bind_ref_bound (self : NodeData.t) (w : World S) (d : doc) (instance : Model) :
  obj_items (NodeData._node_data self) = Ok d ->
  py_truthy (NodeDataRef.get_ref ref_func self instance) = true ->
  NodeDataRef.bind_ref settings ref_func instance (self, w)
    = (Ok tt,
       (NodeData.set_node_data
          (with_items (NodeData._node_data self)
             (with_reference d (NodeDataRef.get_ref ref_func self instance)
                (Field.ref_version (NodeData.field self))))
          self, w)).
Proof.
  intros Hd Href. unfold NodeDataRef.bind_ref. unfold bind at 1.
  unfold NodeData.self_ at 1. rewrite Href. unfold bind at 1.
  rewrite (setitem_bound settings self w d "_ref" _ Hd).
  set (self1 := NodeData.set_node_data _ self).
  assert (Hd1 : obj_items (NodeData._node_data self1)
                = Ok (<["_ref" := NodeDataRef.get_ref ref_func self instance]> d))
    by (subst self1; simpl; now apply obj_items_with_items with d).
  unfold bind at 1. unfold NodeData.self_ at 1.
  rewrite (setitem_bound settings self1 w _ "_ref_version" _ Hd1).
  subst self1. simpl. now rewrite with_items_twice.
Qed.

(** On a proxy whose body is materialized, [bind_ref] does nothing when
    the field has no reference function or the reference is a false value
    ([None], [0], the empty string).  Otherwise it writes the reference and
    the field's epoch into the body under [_ref] and [_ref_version], where
    they can be read like any key, and leaves the other keys, the [ref] and
    [ref_version] attributes, the pointer and the store as they were. *)
Theorem bind_ref_writes_into_body
    (self : NodeData.t) (w : World S) (d : doc) (instance : Model) :
  obj_items (NodeData._node_data self) = Ok d ->
  let r := NodeDataRef.get_ref ref_func self instance in
  (ref_func = None -> r = PyNone)
  /\ (py_truthy r = false ->
      NodeDataRef.bind_ref settings ref_func instance (self, w) = (Ok tt, (self, w)))
  /\ (py_truthy r = true ->
      exists self1,
        NodeDataRef.bind_ref settings ref_func instance (self, w) = (Ok tt, (self1, w))
        /\ NodeData.__getitem__ settings "_ref" (self1, w) = (Ok r, (self1, w))
        /\ NodeData.__getitem__ settings "_ref_version" (self1, w)
           = (Ok (Field.ref_version (NodeData.field self)), (self1, w))
        /\ (forall key : string,
              key <> "_ref" -> key <> "_ref_version" ->
              fst (NodeData.__getitem__ settings key (self1, w))
              = fst (NodeData.__getitem__ settings key (self, w)))
        /\ NodeData.set_node_data (NodeData._node_data self) self1 = self).
Proof.
  intros Hd r. split; [ | split ].
  - intros Hnone. subst r. unfold NodeDataRef.get_ref. now rewrite Hnone.
  - intros Hfalse. unfold NodeDataRef.bind_ref, bind, NodeData.self_.
    fold r. now rewrite Hfalse.
  - intros Htrue. eexists. split; [ exact (bind_ref_bound self w d instance Hd Htrue) | ].
    fold r. set (self1 := NodeData.set_node_data _ self).
    assert (Hd1 : obj_items (NodeData._node_data self1)
                  = Ok (with_reference d r (Field.ref_version (NodeData.field self))))
      by (subst self1; simpl; now apply obj_items_with_items with d).
    destruct (with_reference_lookup d r (Field.ref_version (NodeData.field self)))
      as (Href & Hver & Hother).
    split; [ | split; [ | split ] ].
    + rewrite (getitem_bound settings self1 w _ "_ref" Hd1). now rewrite Href.
    + rewrite (getitem_bound settings self1 w _ "_ref_version" Hd1). now rewrite Hver.
    + intros key Hk1 Hk2.
      rewrite (getitem_bound settings self1 w _ key Hd1),
        (getitem_bound settings self w d key Hd).
      simpl. now rewrite Hother.
    + subst self1. now destruct self.
Qed.
End BindRef.

Lemma bind_ref_writes_into_body_witness :
  let w := new_world empty_store in
  @NodeDataRef.get_ref event None bound_event {| project_id := 7 |} = PyNone
  /\ @NodeDataRef.bind_ref MemStore mem_store strict event by_project
       {| project_id := 0 |} (bound_event, w) = (Ok tt, (bound_event, w))
  /\ exists self1,
       @NodeDataRef.bind_ref MemStore mem_store strict event by_project
         {| project_id := 7 |} (bound_event, w) = (Ok tt, (self1, w))
       /\ @NodeData.__getitem__ MemStore mem_store strict "_ref" (self1, w)
          = (Ok (PyInt 7), (self1, w))
       /\ @NodeData.__getitem__ MemStore mem_store strict "_ref_version" (self1, w)
          = (Ok (PyInt 1), (self1, w))
       /\ (forall key : string,
             key <> "_ref" -> key <> "_ref_version" ->
             fst (@NodeData.__getitem__ MemStore mem_store strict key (self1, w))
             = fst (@NodeData.__getitem__ MemStore mem_store strict key (bound_event, w)))
       /\ NodeData.set_node_data (NodeData._node_data bound_event) self1 = bound_event.
Proof.
  split; [ | split ].
  - apply (proj1 (@bind_ref_writes_into_body MemStore mem_store strict event None
                    bound_event (new_world empty_store) hello {| project_id := 7 |}
                    eq_refl)).
    reflexivity.
  - apply (proj1 (proj2 (@bind_ref_writes_into_body MemStore mem_store strict event
                           by_project bound_event (new_world empty_store) hello
                           {| project_id := 0 |} eq_refl))).
    reflexivity.
  - apply (proj2 (proj2 (@bind_ref_writes_into_body MemStore mem_store strict event
                           by_project bound_event (new_world empty_store) hello
                           {| project_id := 7 |} eq_refl))).
    reflexivity.
Defined.

(** ** The reference from save to load *)
Section ReferenceRoundTrip.
Context {S : Type} `{NodeStore S} `{Codec} (settings : Settings).
Context {Model : Type} (ref_func : option (Model -> pyval)).

(** What the check of [bind_data] comes to on a body that [bind_ref]
    stamped with the reference [r] under the field's own epoch. *)
Lemma stamped_violation (f : Field.t) (d : doc) (r expected : pyval) :
  integrity_violation f (with_reference d r (Field.ref_version f)) expected
  = negb (is_None expected) && py_ne r expected.
Proof.
  destruct (with_reference_lookup d r (Field.ref_version f)) as (Href & Hver & _).
  unfold integrity_violation, stored_ref, stored_ref_version.
  rewrite Href, Hver. simpl. now rewrite py_eq_refl.
Qed.

(** A bound proxy is stamped by [bind_ref] with a true reference [r] and
    saved, and the persisted value is decoded again.  Then the store holds
    the body with the reference and the field's epoch in it, even when the
    body was empty and the field allows null; binding what the store holds
    with the expected reference [r] succeeds and gives back the body without
    the reserved keys; binding it with any other expected reference that is
    not [None] raises [NodeIntegrityFailure]. *)
Theorem reference_survives_save
    (self : Field.t) (value : NodeData.t) (w : World S) (d : doc) (instance : Model) :
  create_then_get -> set_then_get -> codec_reversible -> keeps_items self ->
  NodeData.field value = self ->
  obj_items (NodeData._node_data value) = Ok d ->
  let r := NodeDataRef.get_ref ref_func value instance in
  py_truthy r = true ->
  exists bytes value2 w2 loaded,
    (NodeDataRef.bind_ref settings ref_func instance;;
     NodeField.get_prep_value settings self) (value, w) = (Ok bytes, (value2, w2))
    /\ NodeField.to_python self (Val bytes) w2 = (Ok loaded, w2)
    /\ obj_items (get_or_empty w2 (NodeData.id loaded))
       = Ok (with_reference d r (Field.ref_version self))
    /\ (exists loaded1 rest,
          NodeData.bind_data r (loaded, get_or_empty w2 (NodeData.id loaded))
            = (Ok tt, (loaded1, rest))
          /\ obj_items (NodeData._node_data loaded1) = Ok (without_reserved d)
          /\ NodeData.ref loaded1 = r
          /\ NodeData.ref_version loaded1 = Field.ref_version self)
    /\ (forall other : pyval,
          other <> PyNone ->
          py_ne r other = true ->
          fst (NodeData.bind_data other (loaded, get_or_empty w2 (NodeData.id loaded)))
          = Raise NodeIntegrityFailure).
Proof.
  intros Hcreate Hset Hcodec Hkeep Hfield Hd r Hr.
  set (d2 := with_reference d r (Field.ref_version self)).
  pose proof (bind_ref_bound settings ref_func value w d instance Hd Hr) as Hstamp.
  fold r in Hstamp. rewrite Hfield in Hstamp. fold d2 in Hstamp.
  set (value1 := NodeData.set_node_data _ value) in Hstamp.
  assert (Hd1 : obj_items (NodeData._node_data value1) = Ok d2)
    by (subst value1; simpl; now apply obj_items_with_items with d).
  destruct (write_body_then_get value1 w (Dict d2) Hcreate Hset)
    as (id & value2 & w2 & Hwrite & Hid & Hget).
  assert (Hgot : obj_items (get_or_empty w2 id) = Ok d2)
    by (unfold get_or_empty; rewrite Hget; apply or_empty_items).
  exists (persisted id), value2, w2, (pointing self id).
  split; [ | split; [ now apply to_python_pointer | split; [ exact Hgot | split ] ] ].
  - unfold bind at 1. rewrite Hstamp.
    rewrite (save_bound settings self value1 w (size d2)
               (mapping_is_not_None _ _ Hd1) (mapping_len _ _ Hd1)).
    + now rewrite (mapping_stored_form _ _ Hd1).
    + subst d2. now rewrite with_reference_size.
  - simpl NodeData.id.
    rewrite (bind_data_run (pointing self id) _ d2 r Hgot). simpl NodeData.field.
    subst d2. rewrite stamped_violation, py_ne_refl, andb_false_r.
    eexists. eexists. split; [ reflexivity | ]. simpl.
    destruct (with_reference_lookup d r (Field.ref_version self)) as (Href & Hver & _).
    unfold stored_ref, stored_ref_version. rewrite Href, Hver. simpl.
    rewrite Hkeep, without_reserved_with_reference.
    split; [ | split; reflexivity ].
    apply obj_items_with_items with (with_reference d r (Field.ref_version self)).
    exact Hgot.
  - intros other Hother Hne. simpl NodeData.id.
    rewrite (bind_data_run (pointing self id) _ d2 other Hgot). simpl NodeData.field.
    subst d2. rewrite stamped_violation, Hne.
    destruct other; try reflexivity. now contradiction Hother.
Qed.
End ReferenceRoundTrip.

Lemma reference_survives_save_witness :
  exists bytes value2 w2 loaded,
    (@NodeDataRef.bind_ref MemStore mem_store strict event by_project {| project_id := 7 |};;
     @NodeField.get_prep_value MemStore mem_store tag_codec strict wrapping)
      (bound_event, new_world empty_store) = (Ok bytes, (value2, w2))
    /\ @NodeField.to_python MemStore tag_codec wrapping (Val bytes) w2 = (Ok loaded, w2)
    /\ obj_items (@get_or_empty MemStore mem_store w2 (NodeData.id loaded))
       = Ok (with_reference hello (PyInt 7) (PyInt 1))
    /\ (exists loaded1 rest,
          NodeData.bind_data (PyInt 7)
            (loaded, @get_or_empty MemStore mem_store w2 (NodeData.id loaded))
            = (Ok tt, (loaded1, rest))
          /\ obj_items (NodeData._node_data loaded1) = Ok (without_reserved hello)
          /\ NodeData.ref loaded1 = PyInt 7
          /\ NodeData.ref_version loaded1 = PyInt 1)
    /\ (forall other : pyval,
          other <> PyNone ->
          py_ne (PyInt 7) other = true ->
          fst (NodeData.bind_data other
                 (loaded, @get_or_empty MemStore mem_store w2 (NodeData.id loaded)))
          = Raise NodeIntegrityFailure).
Proof.
  exact (@reference_survives_save MemStore mem_store tag_codec strict event by_project
           wrapping bound_event (new_world empty_store) hello {| project_id := 7 |}
           mem_store_create_then_get mem_store_set_then_get tag_codec_reversible
           canonical_wrapper_keeps_items eq_refl eq_refl eq_refl).
Defined.

(** ** Empty values, inline bodies and unpopulated proxies at save time *)
Section Columns.
Context {S : Type} `{NodeStore S} `{Codec} (settings : Settings).

Lemma falsy_is_no_string (value : pyobj) :
  obj_truthy value = false -> NodeField.nonempty_string value = None.
Proof.
  destruct value as [d | d | [ | b | z | s]]; simpl; try reflexivity.
  intros Hs. apply negb_false_iff in Hs. now rewrite Hs.
Qed.

(** On a field that allows null, every false column value ([None], the
    empty string, an empty dict, [0]) decodes to a proxy without pointer
    bound to the empty document, and saving that proxy persists [None]
    again: the cycle logs nothing, calls the store never and leaves the
    proxy as decoded. *)
Theorem empty_value_stays_null (self : Field.t) (value : pyobj) (w : World S) :
  Field.null self = true ->
  obj_truthy value = false ->
  obj_items (Field.wrap self (Dict ∅)) = Ok ∅ ->
  exists loaded,
    NodeField.to_python self value w = (Ok loaded, w)
    /\ NodeData.id loaded = PyNone
    /\ obj_items (NodeData._node_data loaded) = Ok ∅
    /\ NodeField.get_prep_value settings self (loaded, w) = (Ok PyNone, (loaded, w)).
Proof.
  intros Hnull Hfalse Hwrap.
  exists (NodeData.__init__ self PyNone (Field.wrap self (Dict ∅))).
  split; [ | split; [ reflexivity | split; [ exact Hwrap | ] ] ].
  - unfold NodeField.to_python.
    rewrite (falsy_is_no_string value Hfalse), Hfalse. reflexivity.
  - rewrite get_prep_value_run, len_bound
      by (simpl; exact (mapping_is_not_None _ _ Hwrap)).
    simpl NodeData._node_data.
    now rewrite (mapping_len _ _ Hwrap), map_size_empty, Hnull.
Qed.

(** A column value that is, or decodes to, a mapping without [node_id] is
    taken as the body itself: the proxy is bound to it, without pointer and
    without a look at the store.  The next save, unless it persists null,
    moves that body into the store with one [create] and persists the new
    pointer. *)
Theorem inline_body_moves_to_store
    (self : Field.t) (value : pyobj) (w : World S) (d : doc) :
  obj_items (decoded_input value) = Ok d ->
  d !! "node_id" = None ->
  keeps_items self ->
  Nat.eqb (size d) 0 && Field.null self = false ->
  exists loaded w1,
    NodeField.to_python self value w = (Ok loaded, w1)
    /\ calls w1 = calls w
    /\ NodeData.id loaded = PyNone
    /\ obj_items (NodeData._node_data loaded) = Ok d
    /\ NodeField.get_prep_value settings self (loaded, w1)
       = (Ok (persisted (new_pointer w1 (Dict d))),
          (NodeData.set_id (new_pointer w1 (Dict d)) loaded, after_create w1 (Dict d)))
    /\ calls (after_create w1 (Dict d)) = (calls w ++ [CallCreate (Dict d)])%list.
Proof.
  intros Hd Hnoid Hkeep Hnull.
  destruct (to_python_mapping self value w d Hd) as (w1 & Hcalls & _ & Hrun).
  rewrite Hnoid in Hrun.
  set (loaded := NodeData.__init__ self PyNone (Field.wrap self (decoded_input value))) in *.
  assert (Hbody : obj_items (NodeData._node_data loaded) = Ok d)
    by (subst loaded; simpl; now rewrite Hkeep).
  exists loaded, w1.
  split; [ exact Hrun | split; [ exact Hcalls | split; [ reflexivity | split ] ] ];
    [ exact Hbody | split ].
  - rewrite (save_bound settings self loaded w1 (size d)
               (mapping_is_not_None _ _ Hbody) (mapping_len _ _ Hbody) Hnull).
    now rewrite (mapping_stored_form _ _ Hbody).
  - simpl. now rewrite Hcalls.
Qed.

(** Saving a proxy that has a pointer and no body.  In strict mode the
    save raises [NodeUnpopulated] at its truth test and nothing is called.
    In lenient mode the save first fetches the body, binds it, and then,
    unless it persists null, writes back with [set] what the bind left: the
    fetched document without [_ref] and [_ref_version]. *)
Theorem save_unpopulated (self : Field.t) (value : NodeData.t) (w : World S) (d : doc) :
  is_not_None (NodeData._node_data value) = false ->
  py_truthy (NodeData.id value) = true ->
  obj_items (get_or_empty w (NodeData.id value)) = Ok d ->
  keeps_items (NodeData.field value) ->
  (DEBUG settings = true ->
     NodeField.get_prep_value settings self (value, w)
       = (Raise NodeUnpopulated, (value, w)))
  /\ (DEBUG settings = false ->
      Nat.eqb (size (without_reserved d)) 0 && Field.null self = false ->
      exists value1 w1,
        NodeField.get_prep_value settings self (value, w)
          = (Ok (persisted (NodeData.id value)), (value1, w1))
        /\ obj_items (NodeData._node_data value1) = Ok (without_reserved d)
        /\ calls w1
           = (calls w ++ [CallGet (NodeData.id value);
                          CallSet (NodeData.id value) (Dict (without_reserved d))])%list).
Proof.
  intros Hb Hid Hd Hkeep. split; intros Hdebug.
  - rewrite get_prep_value_run. unfold NodeData.__len__, NodeData.read_data, bind.
    now rewrite (data_strict settings value w Hb Hid Hdebug).
  - intros Hnull.
    pose proof (data_lenient settings value w Hb Hid Hdebug) as Hdata.
    cbv zeta in Hdata.
    rewrite (bind_data_run value _ d PyNone Hd) in Hdata.
    unfold integrity_violation in Hdata. simpl is_None in Hdata.
    rewrite andb_false_r in Hdata. simpl in Hdata.
    set (value1 := NodeData.set_node_data _ _) in Hdata.
    assert (Hd1 : obj_items (NodeData._node_data value1) = Ok (without_reserved d)).
    { subst value1. simpl. rewrite Hkeep. now apply obj_items_with_items with d. }
    pose proof (mapping_is_not_None _ _ Hd1) as Hb1.
    assert (Hlen : NodeData.__len__ settings (value, w)
                   = (Ok (size (without_reserved d)),
                      (value1, fetched_world w (NodeData.id value)))).
    { unfold NodeData.__len__, NodeData.read_data, bind. rewrite Hdata.
      unfold NodeData.self_, ret, lift_result, NodeData.deref. cbv beta iota.
      now rewrite (mapping_len _ _ Hd1). }
    exists value1, (after_set (fetched_world w (NodeData.id value)) (NodeData.id value)
                      (Dict (without_reserved d))).
    split; [ | split; [ exact Hd1 | ] ].
    + rewrite get_prep_value_run, Hlen, Hnull.
      rewrite (body_of_bound value1 Hb1), (mapping_stored_form _ _ Hd1).
      unfold write_body. subst value1. simpl NodeData.id. now rewrite Hid.
    + simpl. now rewrite <- app_assoc.
Qed.
End Columns.

Lemma empty_value_stays_null_witness :
  exists loaded,
    @NodeField.to_python MemStore tag_codec wrapping (Val (PyStr EmptyString))
      (new_world empty_store) = (Ok loaded, new_world empty_store)
    /\ NodeData.id loaded = PyNone
    /\ obj_items (NodeData._node_data loaded) = Ok ∅
    /\ @NodeField.get_prep_value MemStore mem_store tag_codec strict wrapping
         (loaded, new_world empty_store) = (Ok PyNone, (loaded, new_world empty_store)).
Proof.
  exact (@empty_value_stays_null MemStore mem_store tag_codec strict wrapping
           (Val (PyStr EmptyString)) (new_world empty_store) eq_refl eq_refl eq_refl).
Defined.

Lemma inline_body_moves_to_store_witness :
  exists loaded w1,
    @NodeField.to_python MemStore tag_codec wrapping (Dict doc_ref1)
      (new_world empty_store) = (Ok loaded, w1)
    /\ calls w1 = calls (new_world empty_store)
    /\ NodeData.id loaded = PyNone
    /\ obj_items (NodeData._node_data loaded) = Ok doc_ref1
    /\ @NodeField.get_prep_value MemStore mem_store tag_codec strict wrapping (loaded, w1)
       = (Ok (@persisted tag_codec (@new_pointer MemStore mem_store w1 (Dict doc_ref1))),
          (NodeData.set_id (@new_pointer MemStore mem_store w1 (Dict doc_ref1)) loaded,
           @after_create MemStore mem_store w1 (Dict doc_ref1)))
    /\ calls (@after_create MemStore mem_store w1 (Dict doc_ref1))
       = (calls (new_world empty_store) ++ [CallCreate (Dict doc_ref1)])%list.
Proof.
  exact (@inline_body_moves_to_store MemStore mem_store tag_codec strict wrapping
           (Dict doc_ref1) (new_world empty_store) doc_ref1
           eq_refl eq_refl canonical_wrapper_keeps_items eq_refl).
Defined.

Lemma save_unpopulated_witness :
  let value := pointing epoch1 (PyInt 1) in
  let w := new_world store_ref1 in
  @NodeField.get_prep_value MemStore mem_store tag_codec strict epoch1 (value, w)
    = (Raise NodeUnpopulated, (value, w))
  /\ exists value1 w1,
       @NodeField.get_prep_value MemStore mem_store tag_codec lenient epoch1 (value, w)
         = (Ok (@persisted tag_codec (PyInt 1)), (value1, w1))
       /\ obj_items (NodeData._node_data value1) = Ok (without_reserved doc_ref1)
       /\ calls w1
          = [CallGet (PyInt 1); CallSet (PyInt 1) (Dict (without_reserved doc_ref1))].
Proof.
  split.
  - apply (proj1 (@save_unpopulated MemStore mem_store tag_codec strict epoch1
                    (pointing epoch1 (PyInt 1)) (new_world store_ref1) doc_ref1
                    eq_refl eq_refl eq_refl (no_wrapper_keeps_items epoch1 eq_refl))).
    reflexivity.
  - apply (proj2 (@save_unpopulated MemStore mem_store tag_codec lenient epoch1
                    (pointing epoch1 (PyInt 1)) (new_world store_ref1) doc_ref1
                    eq_refl eq_refl eq_refl (no_wrapper_keeps_items epoch1 eq_refl))).
    + reflexivity.
    + reflexivity.
Defined.

(** ** [NodeField.__init__] *)

(** The constructor takes [ref_func], [ref_version] and [wrapper] out of
    its keyword arguments, each with the value it was given or [None], and
    hands the parent constructor keyword arguments that contain none of the
    three and every other keyword with its value. *)
Theorem init_keeps_own_options {A : Type} (kwargs : gmap string A) :
  let field := NodeFieldInit.__init__ kwargs in
  NodeFieldInit.ref_func field = kwargs !! "ref_func"
  /\ NodeFieldInit.ref_version field = kwargs !! "ref_version"
  /\ NodeFieldInit.wrapper field = kwargs !! "wrapper"
  /\ NodeFieldInit.super_kwargs field !! "ref_func" = None
  /\ NodeFieldInit.super_kwargs field !! "ref_version" = None
  /\ NodeFieldInit.super_kwargs field !! "wrapper" = None
  /\ forall key : string,
       key <> "ref_func" -> key <> "ref_version" -> key <> "wrapper" ->
       NodeFieldInit.super_kwargs field !! key = kwargs !! key.
Proof.
  cbv zeta. unfold NodeFieldInit.__init__, NodeFieldInit.pop_kwarg. simpl.
  split; [ reflexivity | split; [ | split; [ | split; [ | split; [ | split ] ] ] ] ].
  - now rewrite lookup_delete_ne by discriminate.
  - now rewrite !lookup_delete_ne by discriminate.
  - rewrite !lookup_delete_ne by discriminate. apply lookup_delete_eq.
  - rewrite lookup_delete_ne by discriminate. apply lookup_delete_eq.
  - apply lookup_delete_eq.
  - intros key H1 H2 H3. now rewrite !lookup_delete_ne by congruence.
Qed.

Example init_sample :
  NodeFieldInit.super_kwargs (NodeFieldInit.__init__ sample_kwargs)
  = <["blank" := "True"]> {[ "null" := "True" ]}
  /\ NodeFieldInit.wrapper (NodeFieldInit.__init__ sample_kwargs) = None.
Proof. split; reflexivity. Qed.

(** ** Load, change, save *)
Section LoadChangeSave.
Context {S : Type} `{NodeStore S} `{Codec} (settings : Settings).

(** The first read of a proxy with a pointer and no body, in lenient
    mode, when the store has a mapping for the pointer. *)
Lemma read_fetched_body (self : NodeData.t) (w : World S) (d : doc) :
  is_not_None (NodeData._node_data self) = false ->
  py_truthy (NodeData.id self) = true ->
  DEBUG settings = false ->
  obj_items (get_or_empty w (NodeData.id self)) = Ok d ->
  keeps_items (NodeData.field self) ->
  exists self1,
    NodeData.read_data settings (self, w)
      = (Ok (NodeData.Own, NodeData._node_data self1),
         (self1, fetched_world w (NodeData.id self)))
    /\ obj_items (NodeData._node_data self1) = Ok (without_reserved d)
    /\ NodeData.id self1 = NodeData.id self.
Proof.
  intros Hb Hid Hdebug Hd Hkeep.
  pose proof (data_lenient settings self w Hb Hid Hdebug) as Hdata.
  cbv zeta in Hdata.
  rewrite (bind_data_run self _ d PyNone Hd) in Hdata.
  unfold integrity_violation in Hdata. simpl is_None in Hdata.
  rewrite andb_false_r in Hdata. simpl in Hdata.
  eexists. split; [ | split ].
  - unfold NodeData.read_data, bind. rewrite Hdata. reflexivity.
  - simpl. rewrite Hkeep. now apply obj_items_with_items with d.
  - reflexivity.
Qed.

(** A proxy decoded from a pointer is written to and then saved, in
    lenient mode.  The write fetches the body once; the save that follows
    makes one [set] under the same pointer with the fetched document,
    without its reserved keys and with the new value at the key, and
    persists the same pointer; [create] is not called, and the save is not
    turned into a null even on a field that allows null. *)
Theorem load_change_save
    (self : Field.t) (id : pyval) (w : World S) (d : doc)
    (key : string) (value : pyval) :
  DEBUG settings = false ->
  py_truthy id = true ->
  obj_items (get_or_empty w id) = Ok d ->
  keeps_items self ->
  let written := <[key := value]> (without_reserved d) in
  exists value1 w1,
    (NodeData.__setitem__ settings key value;;
     NodeField.get_prep_value settings self) (pointing self id, w)
      = (Ok (persisted id), (value1, w1))
    /\ obj_items (NodeData._node_data value1) = Ok written
    /\ calls w1 = (calls w ++ [CallGet id; CallSet id (Dict written)])%list
    /\ store w1 = ns_set (store w) id (Dict written).
Proof.
  intros Hdebug Hid Hd Hkeep written.
  destruct (read_fetched_body (pointing self id) w d eq_refl Hid Hdebug Hd Hkeep)
    as (self1 & Hread & Hd1 & Hid1).
  simpl NodeData.id in Hread.
  set (value1 := NodeData.set_node_data
                   (with_items (NodeData._node_data self1) written) self1).
  assert (Hset : NodeData.__setitem__ settings key value (pointing self id, w)
                 = (Ok tt, (value1, fetched_world w id))).
  { unfold NodeData.__setitem__. unfold bind at 1. rewrite Hread.
    unfold bind, lift_result, NodeData.assign, NodeData.update, modify.
    subst value1 written.
    destruct (NodeData._node_data self1) as [d0 | d0 | v0]; simpl in Hd1;
      try discriminate Hd1; injection Hd1 as ->; reflexivity. }
  assert (Hdv : obj_items (NodeData._node_data value1) = Ok written)
    by (subst value1; simpl; now apply obj_items_with_items with (without_reserved d)).
  assert (Hsize : Nat.eqb (size written) 0 && Field.null self = false).
  { assert (Hne : Nat.eqb (size written) 0 = false); [ | now rewrite Hne ].
    apply Nat.eqb_neq. intros Hzero. apply map_size_empty_inv in Hzero.
    assert (Hk : written !! key = Some value) by apply lookup_insert_eq.
    rewrite Hzero, lookup_empty in Hk. discriminate Hk. }
  assert (Hidv : NodeData.id value1 = id) by (subst value1; simpl; exact Hid1).
  exists value1, (after_set (fetched_world w id) id (Dict written)).
  split; [ | split; [ exact Hdv | split; [ | reflexivity ] ] ].
  - unfold bind at 1. rewrite Hset.
    rewrite (save_with_pointer settings self value1 _ (size written)
               (mapping_is_not_None _ _ Hdv) (mapping_len _ _ Hdv) Hsize)
      by now rewrite Hidv.
    now rewrite Hidv, (mapping_stored_form _ _ Hdv).
  - simpl. now rewrite <- app_assoc.
Qed.
End LoadChangeSave.

Lemma load_change_save_witness :
  let written := <["level" := PyInt 3]> (without_reserved doc_ref1) in
  exists value1 w1,
    (@NodeData.__setitem__ MemStore mem_store lenient "level" (PyInt 3);;
     @NodeField.get_prep_value MemStore mem_store tag_codec lenient wrapping)
      (pointing wrapping (PyInt 1), new_world store_ref1)
      = (Ok (@persisted tag_codec (PyInt 1)), (value1, w1))
    /\ obj_items (NodeData._node_data value1) = Ok written
    /\ calls w1 = [CallGet (PyInt 1); CallSet (PyInt 1) (Dict written)]
    /\ store w1 = @ns_set MemStore mem_store store_ref1 (PyInt 1) (Dict written).
Proof.
  exact (@load_change_save MemStore mem_store tag_codec lenient wrapping (PyInt 1)
           (new_world store_ref1) doc_ref1 "level" (PyInt 3)
           eq_refl eq_refl eq_refl canonical_wrapper_keeps_items).
Defined.

(** ** Strict mode *)
Section Strict.
Context {S : Type} `{NodeStore S} (settings : Settings).

Lemma read_strict_world (self : NodeData.t) (w : World S) :
  DEBUG settings = true ->
  snd (snd (NodeData.read_data settings (self, w))) = w.
Proof.
  intros Hdebug. unfold NodeData.read_data, bind.
  destruct (is_not_None (NodeData._node_data self)) eqn:Hb.
  - now rewrite data_bound.
  - destruct (py_truthy (NodeData.id self)) eqn:Hid.
    + now rewrite data_strict.
    + now rewrite data_unbound_empty.
Qed.

(** An access that needs a fetch raises in strict mode and leaves the
    proxy and the world as they were. *)
Lemma read_strict_unpopulated (self : NodeData.t) (w : World S) :
  DEBUG settings = true ->
  is_not_None (NodeData._node_data self) = false ->
  py_truthy (NodeData.id self) = true ->
  NodeData.read_data settings (self, w) = (Raise NodeUnpopulated, (self, w)).
Proof.
  intros Hdebug Hb Hid. unfold NodeData.read_data, bind.
  now rewrite (data_strict settings self w Hb Hid Hdebug).
Qed.

(** In strict mode no method of the mapping interface calls the store,
    warns or logs, whatever the proxy; and on a proxy that has a pointer and
    no body each of the five methods raises [NodeUnpopulated] and changes
    neither the proxy nor the world. *)
Theorem strict_mode_never_fetches (self : NodeData.t) (w : World S) (key : string)
    (value : pyval) :
  DEBUG settings = true ->
  (snd (snd (NodeData.__getitem__ settings key (self, w))) = w
   /\ snd (snd (NodeData.__setitem__ settings key value (self, w))) = w
   /\ snd (snd (NodeData.__delitem__ settings key (self, w))) = w
   /\ snd (snd (NodeData.__len__ settings (self, w))) = w
   /\ snd (snd (NodeDataRef.__iter__ settings (self, w))) = w)
  /\ (is_not_None (NodeData._node_data self) = false ->
      py_truthy (NodeData.id self) = true ->
      NodeData.__getitem__ settings key (self, w) = (Raise NodeUnpopulated, (self, w))
      /\ NodeData.__setitem__ settings key value (self, w)
         = (Raise NodeUnpopulated, (self, w))
      /\ NodeData.__delitem__ settings key (self, w) = (Raise NodeUnpopulated, (self, w))
      /\ NodeData.__len__ settings (self, w) = (Raise NodeUnpopulated, (self, w))
      /\ NodeDataRef.__iter__ settings (self, w) = (Raise NodeUnpopulated, (self, w))).
Proof.
  intros Hdebug. split.
  - pose proof (read_strict_world self w Hdebug) as Hread.
    unfold NodeData.__getitem__, NodeData.__setitem__, NodeData.__delitem__,
      NodeData.__len__, NodeDataRef.__iter__.
    repeat split.
    + unfold bind.
      destruct (NodeData.read_data settings (self, w)) as [[[r o] | e] [self1 w1]];
        simpl in *; [ | exact Hread ].
      unfold lift_result. exact Hread.
    + unfold bind.
      destruct (NodeData.read_data settings (self, w)) as [[[r o] | e] [self1 w1]];
        simpl in *; [ | exact Hread ].
      unfold lift_result. destruct (obj_setitem o key value); [ | exact Hread ].
      destruct r; exact Hread.
    + unfold bind.
      destruct (NodeData.read_data settings (self, w)) as [[[r o] | e] [self1 w1]];
        simpl in *; [ | exact Hread ].
      unfold lift_result. destruct (obj_delitem o key); [ | exact Hread ].
      destruct r; exact Hread.
    + unfold bind.
      destruct (NodeData.read_data settings (self, w)) as [[[r o] | e] [self1 w1]];
        simpl in *; [ | exact Hread ].
      unfold lift_result. exact Hread.
    + unfold bind.
      destruct (NodeData.read_data settings (self, w)) as [[[r o] | e] [self1 w1]];
        simpl in *; [ | exact Hread ].
      unfold lift_result. exact Hread.
  - intros Hb Hid.
    pose proof (read_strict_unpopulated self w Hdebug Hb Hid) as Hraise.
    unfold NodeData.__getitem__, NodeData.__setitem__, NodeData.__delitem__,
      NodeData.__len__, NodeDataRef.__iter__, bind.
    rewrite Hraise. repeat split.
Qed.
End Strict.

Lemma strict_mode_never_fetches_witness :
  let self := pointing epoch1 (PyInt 1) in
  let w := new_world store_ref1 in
  (snd (snd (@NodeData.__getitem__ MemStore mem_store strict "message" (self, w))) = w
   /\ snd (snd (@NodeData.__setitem__ MemStore mem_store strict "message" (PyInt 3)
                  (self, w))) = w
   /\ snd (snd (@NodeData.__delitem__ MemStore mem_store strict "message" (self, w))) = w
   /\ snd (snd (@NodeData.__len__ MemStore mem_store strict (self, w))) = w
   /\ snd (snd (@NodeDataRef.__iter__ MemStore mem_store strict (self, w))) = w)
  /\ @NodeData.__getitem__ MemStore mem_store strict "message" (self, w)
     = (Raise NodeUnpopulated, (self, w))
  /\ @NodeData.__setitem__ MemStore mem_store strict "message" (PyInt 3) (self, w)
     = (Raise NodeUnpopulated, (self, w))
  /\ @NodeData.__delitem__ MemStore mem_store strict "message" (self, w)
     = (Raise NodeUnpopulated, (self, w))
  /\ @NodeData.__len__ MemStore mem_store strict (self, w)
     = (Raise NodeUnpopulated, (self, w))
  /\ @NodeDataRef.__iter__ MemStore mem_store strict (self, w)
     = (Raise NodeUnpopulated, (self, w)).
Proof.
  split.
  - exact (proj1 (@strict_mode_never_fetches MemStore mem_store strict
                    (pointing epoch1 (PyInt 1)) (new_world store_ref1) "message"
                    (PyInt 3) eq_refl)).
  - apply (proj2 (@strict_mode_never_fetches MemStore mem_store strict
                    (pointing epoch1 (PyInt 1)) (new_world store_ref1) "message"
                    (PyInt 3) eq_refl)).
    + reflexivity.
    + reflexivity.
Defined.
